(** * CheXpert_Full: layout resolution, index construction and sample
    materialisation

    A shallow embedding of [src/datasets/chest_xray/chexpert_full.py].
    The dataset class touches four libraries (os.path, numpy, PIL and
    torchvision); the parts of their behaviour that the class relies on are
    written out below next to the code that calls them.  Three library
    behaviours stay abstract and are section variables: Python's [float]
    conversion of a text cell, PIL's resampling of pixel values and the
    unpacking of the archive.

    Conventions.  Floating-point label values are rationals (the codes of
    a manifest are decimal literals; [nan] and [inf] are outside the
    model), and pixel values are the exact rationals that the float32
    arithmetic approximates; no statement below depends on a pixel value
    other than the fill of the padding.  Sizes, pads and positions are
    integers.  The [print] calls of the class and the bookkeeping of the
    base class [VisionDataset] are left out. *)

From Stdlib Require Import ZArith QArith String Ascii List Lia.
From stdpp Require Import base option list strings gmap.

Local Open Scope Z_scope.

(** ** Exceptions *)

Inductive exn : Type :=
  | RuntimeError
  | FileNotFoundError
  | FileExistsError
  | OSError
  | ValueError
  | IndexError
  | TypeError
  | ZeroDivisionError
  | UnidentifiedImageError.

Inductive result (A : Type) : Type :=
  | Ok (a : A)
  | Raise (e : exn).

Arguments Ok {A} a.
Arguments Raise {A} e.

#[global] Instance result_ret : MRet result := fun A a => Ok a.

#[global] Instance result_bind : MBind result := fun A B k r =>
  match r with
  | Ok a => k a
  | Raise e => Raise e
  end.

#[global] Instance result_fmap : FMap result := fun A B f r =>
  match r with
  | Ok a => Ok (f a)
  | Raise e => Raise e
  end.

(** ** numpy arrays of rank 0, 1 and 2 *)

Inductive ndarray (A : Type) : Type :=
  | Array0 (x : A)
  | Array1 (xs : list A)
  | Array2 (rows : list (list A)).

Arguments Array0 {A} x.
Arguments Array1 {A} xs.
Arguments Array2 {A} rows.

(** [a.shape] *)
Definition shape {A} (a : ndarray A) : list Z :=
  match a with
  | Array0 _ => []
  | Array1 xs => [Z.of_nat (length xs)]
  | Array2 rows => [Z.of_nat (length rows); Z.of_nat (length (default [] (head rows)))]
  end.

(** Indexing of a Python tuple or list by a non-negative constant. *)
Definition tuple_get {A} (t : list A) (i : nat) : result A :=
  match t !! i with
  | Some x => Ok x
  | None => Raise IndexError
  end.

(** An integer index into an axis of length [n]: Python counts negative
    positions from the end and raises [IndexError] outside [-n, n). *)
Definition axis_index (n : nat) (i : Z) : result nat :=
  if (0 <=? i) && (i <? Z.of_nat n) then Ok (Z.to_nat i)
  else if (- Z.of_nat n <=? i) && (i <? 0) then Ok (Z.to_nat (i + Z.of_nat n))
  else Raise IndexError.

(** [a[i]] for an integer [i]: one axis less; a rank-0 array has no axis
    to index. *)
Definition getitem {A} (a : ndarray A) (i : Z) : result (ndarray A) :=
  match a with
  | Array0 _ => Raise IndexError
  | Array1 xs => k ← axis_index (length xs) i; Array0 <$> tuple_get xs k
  | Array2 rows => k ← axis_index (length rows) i; Array1 <$> tuple_get rows k
  end.

(** [a[idx]] for an integer index array [idx] (selection along axis 0). *)
Definition take_along {A} (xs : list A) (idx : list Z) : result (list A) :=
  mapM (M := result) (fun i => k ← axis_index (length xs) i; tuple_get xs k) idx.

Definition getitem_array {A} (a : ndarray A) (idx : list Z) : result (ndarray A) :=
  match a with
  | Array0 _ => Raise IndexError
  | Array1 xs => Array1 <$> take_along xs idx
  | Array2 rows => Array2 <$> take_along rows idx
  end.

Definition ndarray_map {A B} (f : A -> B) (a : ndarray A) : ndarray B :=
  match a with
  | Array0 x => Array0 (f x)
  | Array1 xs => Array1 (map f xs)
  | Array2 rows => Array2 (map (map f) rows)
  end.

(** [np.squeeze] of the table of values that a text reader has collected:
    axes of length one are dropped.  A reader that collected no row
    returns [np.array([])], of shape (0,). *)
Definition squeeze {A} (table : list (list A)) : ndarray A :=
  match table with
  | [] => Array1 []
  | [[x]] => Array0 x
  | [row] => Array1 row
  | _ =>
      if forallb (fun row => Nat.eqb (length row) 1) table
      then Array1 (concat table)
      else Array2 table
  end.

(** [np.maximum(a, b)] on one element. *)
Definition Qmaximum (x y : Q) : Q := if Qle_bool x y then y else x.

(** [np.maximum(a, c)] with a scalar [c] broadcast over the array. *)
Definition maximum (a : ndarray Q) (c : Q) : ndarray Q :=
  ndarray_map (fun x => Qmaximum x c) a.

(** Conversion of a float to a 64-bit integer drops the fractional part. *)
Definition Qtrunc (q : Q) : Z := Z.quot (Qnum q) (Zpos (Qden q)).

(** [torch.tensor(a).long()] *)
Definition long (a : ndarray Q) : ndarray Z := ndarray_map Qtrunc a.

(** ** The file system *)

(** A PIL image in mode "L": its size (width, height) and its grey levels
    by column and row. *)
Record image : Type := {
  im_size : Z * Z;
  im_pixel : Z -> Z -> Z
}.

(** What a file holds: a text file is kept as its lines, each line as the
    list of its comma-separated fields (a blank line has no field). *)
Inductive content : Type :=
  | Lines (ls : list (list string))
  | Picture (im : image)
  | Archive.

Inductive node : Type :=
  | Dir
  | File (c : content).

Abbreviation filesystem := (gmap string node).

(** Code that may change the file system and may raise. *)
Definition io (A : Type) : Type := filesystem -> result A * filesystem.

#[global] Instance io_ret : MRet io := fun A a fs => (Ok a, fs).

#[global] Instance io_bind : MBind io := fun A B k m fs =>
  match m fs with
  | (Ok a, fs') => k a fs'
  | (Raise e, fs') => (Raise e, fs')
  end.

Definition raise {A} (e : exn) : io A := fun fs => (Raise e, fs).

Definition snapshot : io filesystem := fun fs => (Ok fs, fs).

(** [os.path.exists] *)
Definition os_path_exists (fs : filesystem) (p : string) : bool :=
  match fs !! p with
  | Some _ => true
  | None => false
  end.

Definition startswith_sep (b : string) : bool :=
  match b with
  | String c _ => Ascii.eqb c "/"
  | EmptyString => false
  end.

Fixpoint endswith_sep (a : string) : bool :=
  match a with
  | EmptyString => false
  | String c EmptyString => Ascii.eqb c "/"
  | String _ a' => endswith_sep a'
  end.

(** [os.path.join(a, b)] (posixpath) *)
Definition os_path_join (a b : string) : string :=
  if startswith_sep b then b
  else if Nat.eqb (String.length a) 0 || endswith_sep a then a +:+ b
  else a +:+ "/" +:+ b.

(** The directories above a path: its non-empty prefixes that stop just
    before a separator, outermost first. *)
Fixpoint parents_from (seen rest : string) : list string :=
  match rest with
  | EmptyString => []
  | String c rest' =>
      let above := parents_from (seen +:+ String c EmptyString) rest' in
      if Ascii.eqb c "/" && negb (Nat.eqb (String.length seen) 0)
      then seen :: above
      else above
  end.

Fixpoint mkdirs (ps : list string) : io unit := fun fs =>
  match ps with
  | [] => (Ok tt, fs)
  | p :: ps' =>
      match fs !! p with
      | None => mkdirs ps' (<[p := Dir]> fs)
      | Some Dir => mkdirs ps' fs
      | Some (File _) => (Raise OSError, fs)
      end
  end.

(** [os.makedirs(name, exist_ok=True)]: the missing directories on the way
    down to [name] are created; a file in the way is an [OSError]. *)
Definition makedirs (name : string) : io unit :=
  mkdirs (parents_from "" name ++ [name]).

(** [Image.open(path).convert("L")] *)
Definition Image_open (fs : filesystem) (path : string) : result image :=
  match fs !! path with
  | Some (File (Picture im)) => Ok im
  | Some (File _) => Raise UnidentifiedImageError
  | Some Dir => Raise OSError
  | None => Raise FileNotFoundError
  end.

(** ** numpy's text readers *)

(** The lines a reader works on: [skip] leading lines are dropped, then
    the lines without any field. *)
Definition data_lines (skip : nat) (ls : list (list string)) : list (list string) :=
  filter (fun vals => vals <> []) (drop skip ls).

Definition read_lines (fs : filesystem) (fname : string) : result (list (list string)) :=
  match fs !! fname with
  | Some (File (Lines ls)) => Ok ls
  | Some (File _) => Raise ValueError
  | _ => Raise OSError
  end.

(** [np.loadtxt(fname, dtype=np.str, delimiter=',', skiprows=skiprows,
    usecols=usecol)] with its default [ndmin=0]: one string per data line,
    axes of length one squeezed away. *)
Definition loadtxt (fs : filesystem) (fname : string) (skiprows usecol : nat)
  : result (ndarray string) :=
  ls ← read_lines fs fname;
  X ← mapM (M := result) (fun vals => v ← tuple_get vals usecol; Ok [v])
        (data_lines skiprows ls);
  Ok (squeeze X).

(** [range(a, b)] *)
Definition range (a b : nat) : list nat := seq a (b - a).

(** ** Tensors and torchvision transforms *)

(** A float tensor of shape (channels, height, width): element [c i j] is
    at row [i] and column [j] of channel [c]. *)
Record tensor : Type := {
  t_shape : Z * Z * Z;
  t_data : Z -> Z -> Z -> Q
}.

(** The output size (height, width) of a resize to [size] on the smaller
    edge with the longer edge bounded by [max_size]
    ([torchvision.transforms.functional._compute_resized_output_size]).
    [int(a / b)] drops the fractional part of the quotient; the float
    quotient has the same integer part as the exact one for every image
    side below 2^32. *)
Definition compute_resized_output_size (image_size : Z * Z) (size : Z)
    (max_size : option Z) : result (Z * Z) :=
  let '(h, w) := image_size in
  let '(short, long) := if w <=? h then (w, h) else (h, w) in
  if short =? 0 then Raise ZeroDivisionError
  else
    let requested_new_short := size in
    let new_short := requested_new_short in
    let new_long := Z.quot (requested_new_short * long) short in
    new ← match max_size with
          | None => Ok (new_short, new_long)
          | Some max_size =>
              if max_size <=? requested_new_short then Raise ValueError
              else if new_long >? max_size
                   then Ok (Z.quot (max_size * new_short) new_long, max_size)
                   else Ok (new_short, new_long)
          end;
    let '(new_short, new_long) := new in
    Ok (if w <=? h then (new_long, new_short) else (new_short, new_long)).

(** [transforms.ToTensor()]: one channel, grey levels scaled to [0, 1]. *)
Definition ToTensor (im : image) : tensor :=
  let '(w, h) := im_size im in
  {| t_shape := (1, h, w);
     t_data := fun _ i j => (inject_Z (im_pixel im j i) / 255)%Q |}.

(** [transforms.Normalize([mean], [std])] *)
Definition Normalize (mean std : Q) (t : tensor) : tensor :=
  {| t_shape := t_shape t;
     t_data := fun c i j => ((t_data t c i j - mean) / std)%Q |}.

(** [transforms.Pad((left, top, right, bottom))], constant fill 0: the
    last two axes grow by the pads and the old content sits at offset
    (top, left). *)
Definition Pad (padding : Z * Z * Z * Z) (t : tensor) : tensor :=
  let '(pad_left, pad_top, pad_right, pad_bottom) := padding in
  let '(c, h, w) := t_shape t in
  {| t_shape := (c, pad_top + h + pad_bottom, pad_left + w + pad_right);
     t_data := fun k i j =>
       if (pad_top <=? i) && (i <? pad_top + h)
          && (pad_left <=? j) && (j <? pad_left + w)
       then t_data t k (i - pad_top) (j - pad_left)
       else 0%Q |}.

(** ** The class CheXpert_Full *)

Definition CHEXPERT_LABELS : gmap string Z :=
  list_to_map
    [ ("No Finding", 0);
      ("Enlarged Cardiomediastinum", 1);
      ("Cardiomegaly", 2);
      ("Lung Opacity", 3);
      ("Lung Lesion", 4);
      ("Edema", 5);
      ("Consolidation", 6);
      ("Pneumonia", 7);
      ("Atelectasis", 8);
      ("Pneumothorax", 9);
      ("Pleural Effusion", 10);
      ("Pleural Other", 11);
      ("Fracture", 12);
      ("Support Devices", 13) ].

Definition any_exist (fs : filesystem) (files : list string) : bool :=
  existsb (os_path_exists fs) files.

Definition LABELS_COL : nat := 5.

Definition CHEXPERT_LABELS_IDX : list Z :=
  [ CHEXPERT_LABELS !!! "Atelectasis"; CHEXPERT_LABELS !!! "Enlarged Cardiomediastinum";
    CHEXPERT_LABELS !!! "Cardiomegaly"; CHEXPERT_LABELS !!! "Lung Opacity";
    CHEXPERT_LABELS !!! "Lung Lesion"; CHEXPERT_LABELS !!! "Edema";
    CHEXPERT_LABELS !!! "Consolidation"; CHEXPERT_LABELS !!! "Pneumonia";
    CHEXPERT_LABELS !!! "Atelectasis"; CHEXPERT_LABELS !!! "Pneumothorax";
    CHEXPERT_LABELS !!! "Pleural Effusion"; CHEXPERT_LABELS !!! "Pleural Other";
    CHEXPERT_LABELS !!! "Fracture"; CHEXPERT_LABELS !!! "Support Devices" ].

Definition NUM_CLASSES : Z := 14.
Definition INPUT_SIZE : Z * Z := (224, 224).
Definition PATCH_SIZE : Z * Z := (16, 16).
Definition IN_CHANNELS : Z := 1.

(** The attributes of a constructed dataset object. *)
Record CheXpert_Full : Type := {
  root : string;
  index_location : string;
  split : string;
  fnames : ndarray string;
  labels : ndarray Q
}.

(** ** Concrete stand-ins for the library behaviours and a small data set

    They instantiate the section variables below on explicit inputs. *)

Definition digit_value (c : ascii) : option Z :=
  let n := Z.of_nat (nat_of_ascii c) in
  if (48 <=? n) && (n <=? 57) then Some (n - 48) else None.

Fixpoint decimal_body (s : string) (num : Z) (den : positive)
    (after_point seen_digit : bool) : option Q :=
  match s with
  | EmptyString => if seen_digit then Some (Qred (num # den)) else None
  | String c s' =>
      if Ascii.eqb c "."
      then if after_point then None
           else decimal_body s' num den true seen_digit
      else match digit_value c with
           | Some d =>
               decimal_body s' (10 * num + d)
                 (if after_point then (10 * den)%positive else den)
                 after_point true
           | None => None
           end
  end.

(** [float] on plain decimal literals such as [1.0], [-1] or [.5]. *)
Definition decimal_float (s : string) : option Q :=
  match s with
  | String "-" s' => Qopp <$> decimal_body s' 0 1 false false
  | String "+" s' => decimal_body s' 0 1 false false
  | _ => decimal_body s 0 1 false false
  end.

(** Nearest-neighbour resampling. *)
Definition nearest_resample (im : image) (new_size : Z * Z) (x y : Z) : Z :=
  let '(w, h) := im_size im in
  let '(new_w, new_h) := new_size in
  im_pixel im (x * w / new_w) (y * h / new_h).

(** An archive whose unpacking creates the listed nodes. *)
Definition unpack (files : list (string * node)) (from_path : string) : io unit :=
  fun fs => (Ok tt, foldr (fun e m => <[e.1 := e.2]> m) fs files).

(** An unpacking that moves the archive away and leaves nothing behind. *)
Definition unpack_nothing (from_path : string) : io unit :=
  fun fs => (Ok tt, delete from_path fs).

(** A picture of one grey level. *)
Definition uniform (w h : Z) : image :=
  {| im_size := (w, h); im_pixel := fun _ _ => 128 |}.

Definition sample_base : string := "/data".
Definition sample_root : string := "/data/chest_xray/chexpert_full".
Definition sample_dir : string := "/data/chest_xray/chexpert_full/CheXpert-v1.0".
Definition sample_zip : string := "/data/chest_xray/chexpert_full/CheXpert-v1.0.zip".

Definition csv_header : list string :=
  [ "Path"; "Sex"; "Age"; "Frontal/Lateral"; "AP/PA"; "No Finding";
    "Enlarged Cardiomediastinum"; "Cardiomegaly"; "Lung Opacity"; "Lung Lesion";
    "Edema"; "Consolidation"; "Pneumonia"; "Atelectasis"; "Pneumothorax";
    "Pleural Effusion"; "Pleural Other"; "Fracture"; "Support Devices" ].

Definition csv_row1 : list string :=
  [ "CheXpert-v1.0/valid/patient64541/study1/view1_frontal.jpg";
    "Male"; "73"; "Frontal"; "AP";
    "0.0"; "1.0"; "1.0"; "1.0"; "0.0"; "0.0"; "0.0"; "0.0"; "-1.0"; "0.0";
    "0.0"; ""; "0.0"; "0.0" ].

Definition csv_row2 : list string :=
  [ "CheXpert-v1.0/valid/patient64542/study1/view1_frontal.jpg";
    "Male"; "70"; "Frontal"; "PA";
    "1.0"; ""; ""; ""; "0.0"; "-1.0"; ""; ""; "1.0"; "0.0";
    "0.0"; ""; "0.0"; "1.0" ].

(** A row with a label code outside {-1, 0, 1}. *)
Definition csv_row3 : list string :=
  [ "CheXpert-v1.0/valid/patient64543/study1/view1_lateral.jpg";
    "Female"; "61"; "Lateral"; "";
    "0.0"; "0.0"; "2.0"; "0.0"; "0.0"; "0.0"; "0.0"; "0.0"; "1.0"; "0.0";
    "0.0"; "0.0"; "0.0"; "0.0" ].

(** What the sample archive holds: a split of two rows, a split of a single
    row, and the pictures. *)
Definition sample_files : list (string * node) :=
  [ (sample_dir, Dir);
    (sample_dir +:+ "/valid.csv", File (Lines [csv_header; csv_row1; csv_row2]));
    (sample_dir +:+ "/train.csv", File (Lines [csv_header; csv_row1]));
    (sample_root +:+ "/CheXpert-v1.0/valid/patient64541/study1/view1_frontal.jpg",
       File (Picture (uniform 390 320)));
    (sample_root +:+ "/CheXpert-v1.0/valid/patient64542/study1/view1_frontal.jpg",
       File (Picture (uniform 320 320)));
    (sample_root +:+ "/CheXpert-v1.0/valid/patient64543/study1/view1_lateral.jpg",
       File (Picture (uniform 320 389))) ].

(** A base directory that holds the archive only. *)
Definition archive_only : filesystem :=
  {[ sample_zip := File Archive ]}.

(** The same base directory once the archive has been unpacked. *)
Definition unpacked : filesystem :=
  (unpack sample_files sample_zip (makedirs sample_root archive_only).2).2.

(** A directory with a split whose third row carries the code 2. *)
Definition odd_split : filesystem :=
  <[ sample_dir +:+ "/valid.csv" := File (Lines [csv_header; csv_row1; csv_row2; csv_row3]) ]>
    unpacked.

(** A computation that only reads the file system. *)
Definition reading {A} (f : filesystem -> result A) : io A :=
  fun fs => (f fs, fs).

Section CheXpert.

(** Python's [float(s)] on a text cell: [None] is a [ValueError]. *)
Variable py_float : string -> option Q.

(** PIL's resampling: the grey level at a column and row of the image
    resized to a (width, height). *)
Variable resample : image -> Z * Z -> Z -> Z -> Z.

(** [torchvision.datasets.utils.extract_archive(from_path)] *)
Variable extract_archive : string -> io unit.

(** numpy's converter of one cell in its default loose mode: a cell that
    [float] rejects takes the filling value. *)
Definition loose_call (default : Q) (value : string) : Q :=
  match py_float value with
  | Some x => x
  | None => default
  end.

(** [np.genfromtxt(fname, dtype=np.float, delimiter=',',
    skip_header=skip_header, usecols=usecols, missing_values='',
    filling_values=filling_values)]: a data line that lacks one of the
    columns makes the call raise once all lines are read. *)
Definition genfromtxt (fs : filesystem) (fname : string) (skip_header : nat)
    (usecols : list nat) (filling_values : Q) : result (ndarray Q) :=
  ls ← read_lines fs fname;
  match mapM (M := option) (fun values => mapM (M := option) (fun j => values !! j) usecols)
          (data_lines skip_header ls) with
  | Some rows => Ok (squeeze (map (map (loose_call filling_values)) rows))
  | None => Raise ValueError
  end.

Definition find_data (root : string) : io string :=
  makedirs root;;
  let components :=
    map (fun x => os_path_join root ("CheXpert-v1.0" +:+ x)) [""; ".zip"] in
  fs ← snapshot;
  if negb (any_exist fs components) then raise RuntimeError
  else
    (if negb (any_exist fs (take 1 components))
     then if os_path_exists fs (components !!! 1%nat)
          then extract_archive (components !!! 1%nat)
          else mret tt
     else mret tt);;
    fs ← snapshot;
    if os_path_exists fs (components !!! 0%nat) then mret (components !!! 0%nat)
    else if os_path_exists fs (components !!! 1%nat) then mret (components !!! 1%nat)
    else raise FileNotFoundError.

(** [build_index] sets the attributes [fnames] and [labels]; here it
    returns them. *)
Definition build_index (index_location split : string) (fs : filesystem)
  : result (ndarray string * ndarray Q) :=
  let index_file := os_path_join index_location (split +:+ ".csv") in
  fnames ← loadtxt fs index_file 1 0;
  let end_col := (LABELS_COL + size CHEXPERT_LABELS)%nat in
  labels ← genfromtxt fs index_file 1 (range LABELS_COL end_col) 0;
  let labels := maximum labels 0 in
  Ok (fnames, labels).

Definition __init__ (base_root : string) (download train : bool) : io CheXpert_Full :=
  let root := os_path_join (os_path_join base_root "chest_xray") "chexpert_full" in
  index_location ← find_data root;
  let split := if train then "train" else "valid" in
  '(fnames, labels) ← reading (build_index index_location split);
  mret {| root := root; index_location := index_location; split := split;
          fnames := fnames; labels := labels |}.

(** [transforms.Resize(size, max_size=max_size)] on a PIL image; PIL
    refuses an empty target size. *)
Definition Resize (size : Z) (max_size : option Z) (im : image) : result image :=
  let '(w, h) := im_size im in
  '(new_h, new_w) ← compute_resized_output_size (h, w) size max_size;
  if (new_w <? 1) || (new_h <? 1) then Raise ValueError
  else Ok {| im_size := (new_w, new_h); im_pixel := resample im (new_w, new_h) |}.

Definition TRANSFORMS (im : image) : result tensor :=
  resized ← Resize (INPUT_SIZE.1 - 1) (Some INPUT_SIZE.1) im;
  Ok (Normalize (5035 # 10000) (2883 # 10000) (ToTensor resized)).

Definition __len__ (self : CheXpert_Full) : result Z :=
  tuple_get (shape (fnames self)) 0.

(** The tuple handed to [transforms.Pad] by the branch of [__getitem__]
    that a height [h] and a width [w] select. *)
Definition pad_amounts (h w : Z) : Z * Z * Z * Z :=
  if h >? w then
    let dim_gap := h - w in
    let pad1 := dim_gap / 2 in
    let pad2 := (dim_gap + dim_gap mod 2) / 2 in
    (pad1, 0, pad2, 0)
  else if h =? w then
    let dim_gap := INPUT_SIZE.1 - h in
    let pad1 := dim_gap in
    let pad2 := dim_gap in
    (pad1, pad2, 0, 0)
  else
    let dim_gap := w - h in
    let pad1 := dim_gap / 2 in
    let pad2 := (dim_gap + dim_gap mod 2) / 2 in
    (0, pad1, 0, pad2).

(** The [if h > w: ... elif h == w: ... else: ...] block of [__getitem__]. *)
Definition padding_step (img : tensor) : tensor :=
  let '(_, h, w) := t_shape img in
  Pad (pad_amounts h w) img.

(** A rank-0 array used where a Python scalar is expected. *)
Definition item {A} (a : ndarray A) : result A :=
  match a with
  | Array0 x => Ok x
  | _ => Raise TypeError
  end.

Definition __getitem__ (self : CheXpert_Full) (fs : filesystem) (index : Z)
  : result (Z * tensor * ndarray Z) :=
  fname ← getitem (fnames self) index ≫= item;
  image ← Image_open fs (os_path_join (root self) fname);
  img ← TRANSFORMS image;
  let img := padding_step img in
  row ← getitem (labels self) index;
  selected ← getitem_array row CHEXPERT_LABELS_IDX;
  let label := long selected in
  Ok (index, img, label).

Definition num_classes : Z := NUM_CLASSES.

End CheXpert.

(** ** The words of the specification

    Definitions that follow the specification rather than the code; the
    theorems below compare them with what the code computes. *)

(** The first column of a data line, its relative image path. *)
Definition first_column (vals : list string) : string :=
  default EmptyString (head vals).

(** The raw label codes of a manifest row: the 14 columns [5, 19). *)
Definition raw_label_row (vals : list string) : list string :=
  take 14 (drop 5 vals).

(** Missing-value imputation: a cell that is not a number counts as 0. *)
Definition impute_missing_to_zero (py_float : string -> option Q) (cell : string) : Q :=
  match py_float cell with
  | Some v => v
  | None => 0%Q
  end.

(** The impute-then-clamp law for a whole data line:
    max(impute_missing_to_zero(row), 0), elementwise. *)
Definition stored_label_row (py_float : string -> option Q) (vals : list string) : list Q :=
  map (fun v => Qmaximum v 0) (map (impute_missing_to_zero py_float) (raw_label_row vals)).

(** The stored form of one raw code: 0 for a missing or negative code, the
    code itself otherwise. *)
Definition stored_code (py_float : string -> option Q) (cell : string) (s : Q) : Prop :=
  match py_float cell with
  | None => (s == 0)%Q
  | Some v => if Qlt_le_dec v 0 then (s == 0)%Q else (s == v)%Q
  end.

(** The label row of data line [i] inside the stored label array: a row of
    the matrix, or the whole array when numpy has squeezed a single line. *)
Definition stored_row (labels : ndarray Q) (i : nat) : option (list Q) :=
  match labels with
  | Array2 rows => rows !! i
  | Array1 row => match i with O => Some row | S _ => None end
  | Array0 _ => None
  end.

(** The canonical class ordering, by class name. *)
Definition canonical_class_ordering : list string :=
  [ "Atelectasis"; "Enlarged Cardiomediastinum"; "Cardiomegaly"; "Lung Opacity";
    "Lung Lesion"; "Edema"; "Consolidation"; "Pneumonia"; "Atelectasis";
    "Pneumothorax"; "Pleural Effusion"; "Pleural Other"; "Fracture";
    "Support Devices" ].

(** The manifest column of a class inside a 14-wide label row. *)
Definition raw_column (name : string) : nat := Z.to_nat (CHEXPERT_LABELS !!! name).

(** A stored row reindexed into the canonical ordering and cast to
    integers. *)
Definition canonical_labels (row : list Q) : list Z :=
  map (fun name => Qtrunc (default 0%Q (row !! raw_column name)))
    canonical_class_ordering.


(** A dataset object whose index was built by [build_index] from a
    manifest with the lines [ls]. *)
Definition built_from (py_float : string -> option Q) (self : CheXpert_Full)
    (ls : list (list string)) : Prop :=
  exists fs0,
    fs0 !! os_path_join (index_location self) (split self +:+ ".csv")
      = Some (File (Lines ls))
    /\ build_index py_float (index_location self) (split self) fs0
      = Ok (fnames self, labels self).

(** The two forms of the data under the dataset directory. *)
Definition extracted_dir (root : string) : string :=
  os_path_join root "CheXpert-v1.0".

Definition archive_path (root : string) : string :=
  os_path_join root "CheXpert-v1.0.zip".


(** ** Sample dataset objects *)

(** The validation split (two rows) and the training split (one row) of
    the sample archive, constructed on the base directory that holds the
    archive only. *)
Definition sample_valid : result CheXpert_Full :=
  (__init__ decimal_float (unpack sample_files) sample_base false false archive_only).1.

Definition sample_train : result CheXpert_Full :=
  (__init__ decimal_float (unpack sample_files) sample_base false true archive_only).1.

Definition sample_odd : result CheXpert_Full :=
  (__init__ decimal_float (unpack sample_files) sample_base false false odd_split).1.

(** The objects themselves. *)
Definition no_object : CheXpert_Full :=
  {| root := ""; index_location := ""; split := "";
     fnames := Array1 []; labels := Array1 [] |}.

Definition valid_object : CheXpert_Full :=
  Eval vm_compute in
    match sample_valid with Ok self => self | Raise _ => no_object end.

Definition train_object : CheXpert_Full :=
  Eval vm_compute in
    match sample_train with Ok self => self | Raise _ => no_object end.

Definition odd_object : CheXpert_Full :=
  Eval vm_compute in
    match sample_odd with Ok self => self | Raise _ => no_object end.

(** The validation split with other "No Finding" cells (manifest column 5)
    and the object built from it. *)
Definition set_no_finding (cell : string) (vals : list string) : list string :=
  <[5%nat := cell]> vals.

Definition flipped_split : filesystem :=
  <[ sample_dir +:+ "/valid.csv" :=
       File (Lines [csv_header; set_no_finding "1.0" csv_row1;
                    set_no_finding "" csv_row2]) ]>
    unpacked.

Definition flipped_object : CheXpert_Full :=
  Eval vm_compute in
    match (__init__ decimal_float (unpack sample_files) sample_base false false
             flipped_split).1 with
    | Ok self => self
    | Raise _ => no_object
    end.

(** What a test observes of a sample: the returned position, the shape of
    the image tensor and the label tensor. *)
Definition sample_view (r : result (Z * tensor * ndarray Z))
  : result (Z * (Z * Z * Z) * ndarray Z) :=
  (fun s => (s.1.1, t_shape s.1.2, s.2)) <$> r.

(** A tensor filled with one value. *)
Definition constant_tensor (c h w : Z) (v : Q) : tensor :=
  {| t_shape := (c, h, w); t_data := fun _ _ _ => v |}.

(** ** Further notions used by the properties of the whole class *)

(** Modelled from the spec: the class [Input2dSpec] of [src.datasets.specs],
    which is not among the sources; the specification gives its three
    fields. *)
Record Input2dSpec : Type := {
  input_size : Z * Z;
  patch_size : Z * Z;
  in_channels : Z
}.

(** The static method [spec()]. *)
Definition spec : list Input2dSpec :=
  [ {| input_size := INPUT_SIZE; patch_size := PATCH_SIZE;
       in_channels := IN_CHANNELS |} ].

(** The value of [self.root] for a base directory. *)
Definition dataset_root (base_root : string) : string :=
  os_path_join (os_path_join base_root "chest_xray") "chexpert_full".

(** The directories that [os.makedirs(root)] makes sure of. *)
Definition root_chain (root : string) : list string :=
  parents_from "" root ++ [root].

(** The elements of an array, row by row. *)
Definition ndarray_values {A} (a : ndarray A) : list A :=
  match a with
  | Array0 x => [x]
  | Array1 xs => xs
  | Array2 rows => concat rows
  end.

(** A base directory whose dataset root is taken by a regular file. *)
Definition blocked : filesystem :=
  {[ sample_root := File Archive; sample_zip := File Archive ]}.

(** The unpacked sample with a validation split that has a header only. *)
Definition header_only : filesystem :=
  <[ sample_dir +:+ "/valid.csv" := File (Lines [csv_header]) ]> unpacked.






(** * Properties *)

(** ** Indexing *)

Lemma axis_index_nonneg (n : nat) (i : Z) :
  0 <= i < Z.of_nat n -> axis_index n i = Ok (Z.to_nat i).
Proof.
  intros [H0 Hn]. unfold axis_index.
  apply Z.leb_le in H0. apply Z.ltb_lt in Hn. by rewrite H0, Hn.
Qed.



Lemma axis_index_inv (n : nat) (i : Z) (k : nat) :
  axis_index n i = Ok k ->
  (k < n)%nat /\ - Z.of_nat n <= i < Z.of_nat n /\
  Z.of_nat k = (if i <? 0 then i + Z.of_nat n else i).
Proof.
  unfold axis_index.
  destruct (Z.leb_spec 0 i), (Z.ltb_spec i (Z.of_nat n)),
    (Z.leb_spec (- Z.of_nat n) i), (Z.ltb_spec i 0); simpl;
    intros [= <-]; repeat split; lia.
Qed.


Lemma tuple_get_lookup {A} (t : list A) (i : nat) (x : A) :
  t !! i = Some x -> tuple_get t i = Ok x.
Proof. unfold tuple_get. by intros ->. Qed.

Lemma tuple_get_lt {A} (t : list A) (i : nat) :
  (i < length t)%nat -> exists x, t !! i = Some x /\ tuple_get t i = Ok x.
Proof.
  intros H. destruct (lookup_lt_is_Some_2 t i H) as [x Hx].
  exists x. split; [done | by apply tuple_get_lookup].
Qed.

Lemma getitem_Array1 {A} (xs : list A) (i : Z) (k : nat) (x : A) :
  axis_index (length xs) i = Ok k -> xs !! k = Some x ->
  getitem (Array1 xs) i = Ok (Array0 x).
Proof.
  intros Hk Hx. unfold getitem. rewrite Hk. simpl.
  by rewrite (tuple_get_lookup _ _ _ Hx).
Qed.

Lemma getitem_Array2 {A} (rows : list (list A)) (i : Z) (k : nat) (row : list A) :
  axis_index (length rows) i = Ok k -> rows !! k = Some row ->
  getitem (Array2 rows) i = Ok (Array1 row).
Proof.
  intros Hk Hx. unfold getitem. rewrite Hk. simpl.
  by rewrite (tuple_get_lookup _ _ _ Hx).
Qed.


Lemma getitem_Array0 {A} (x : A) (i : Z) : getitem (Array0 x) i = Raise IndexError.
Proof. reflexivity. Qed.

(** The index vector of the class, evaluated. *)
Lemma CHEXPERT_LABELS_IDX_value :
  CHEXPERT_LABELS_IDX = [8; 1; 2; 3; 4; 5; 6; 7; 8; 9; 10; 11; 12; 13].
Proof. vm_compute. reflexivity. Qed.

Lemma CHEXPERT_LABELS_size : size CHEXPERT_LABELS = 14%nat.
Proof. vm_compute. reflexivity. Qed.

(** ** The text readers *)

Lemma mapM_result_map {A B} (f : A -> result B) (g : A -> B) (l : list A) :
  Forall (fun x => f x = Ok (g x)) l -> mapM (M := result) f l = Ok (map g l).
Proof.
  induction 1 as [| x l Hx _ IH]; simpl; [done |].
  rewrite Hx. simpl. rewrite IH. done.
Qed.

Lemma lookup_columns {A} (vals : list A) (a n : nat) :
  (a + n <= length vals)%nat ->
  mapM (M := option) (fun j => vals !! j) (seq a n) = Some (take n (drop a vals)).
Proof.
  revert a vals. induction n as [| n IH]; intros a vals Hlen; simpl.
  - by rewrite take_0.
  - assert (Ha : (a < length vals)%nat) by lia.
    destruct (lookup_lt_is_Some_2 vals a Ha) as [x Hx].
    rewrite Hx. simpl. rewrite IH by lia. simpl.
    rewrite (drop_S _ _ _ Hx). simpl.
    done.
Qed.

Lemma lookup_columns_short {A} (vals : list A) (a n : nat) :
  (0 < n)%nat -> (length vals < a + n)%nat ->
  mapM (M := option) (fun j => vals !! j) (seq a n) = None.
Proof.
  revert a. induction n as [| n IH]; intros a Hn Hlen; simpl; [lia |].
  destruct (vals !! a) as [x |] eqn:Hx; simpl; [| done].
  apply lookup_lt_Some in Hx.
  rewrite IH; [done | lia | lia].
Qed.

Lemma label_columns : range LABELS_COL (LABELS_COL + size CHEXPERT_LABELS) = seq 5 14.
Proof. rewrite CHEXPERT_LABELS_size. reflexivity. Qed.

Lemma data_lines_nonempty (skip : nat) (ls : list (list string)) :
  Forall (fun vals => vals <> []) (data_lines skip ls).
Proof.
  unfold data_lines. apply Forall_forall. intros vals Hin.
  apply list_elem_of_filter in Hin. tauto.
Qed.

Lemma squeeze_column {A} (col : list A) :
  squeeze (map (fun x => [x]) col) =
  match col with
  | [x] => Array0 x
  | _ => Array1 col
  end.
Proof.
  destruct col as [| x [| y col]]; try reflexivity.
  unfold squeeze. cbn [map].
  assert (Hall : forall l : list A,
             forallb (fun row => Nat.eqb (length row) 1) (map (fun x => [x]) l) = true
             /\ concat (map (fun x => [x]) l) = l).
  { induction l as [| z l [IH1 IH2]]; simpl; [done |]. by rewrite IH1, IH2. }
  destruct (Hall (x :: y :: col)) as [H1 H2]. cbn [map] in H1, H2.
  by rewrite H1, H2.
Qed.

Lemma squeeze_wide {A} (table : list (list A)) :
  Forall (fun row => (2 <= length row)%nat) table ->
  squeeze table =
  match table with
  | [] => Array1 []
  | [row] => Array1 row
  | _ => Array2 table
  end.
Proof.
  intros Hw. destruct table as [| r1 [| r2 table]]; [done | |].
  - apply Forall_inv in Hw. destruct r1 as [| x [| y r1]]; simpl in *; [lia | lia | done].
  - unfold squeeze.
    assert (forallb (fun row => Nat.eqb (length row) 1) (r1 :: r2 :: table) = false) as ->.
    { apply Forall_inv in Hw. simpl.
      destruct (Nat.eqb_spec (length r1) 1); [lia | done]. }
    destruct r1 as [| x [| y r1]]; done.
Qed.

Lemma loadtxt_first_column (fs : filesystem) (fname : string) (ls : list (list string)) :
  fs !! fname = Some (File (Lines ls)) ->
  loadtxt fs fname 1 0 =
  Ok match data_lines 1 ls with
     | [vals] => Array0 (first_column vals)
     | rows => Array1 (map first_column rows)
     end.
Proof.
  intros Hf. unfold loadtxt, read_lines. rewrite Hf. simpl.
  rewrite (mapM_result_map _ (fun vals => [first_column vals])).
  - simpl. f_equal.
    replace (map (fun vals => [first_column vals]) (data_lines 1 ls))
      with (map (fun x => [x]) (map first_column (data_lines 1 ls)))
      by (by rewrite map_map).
    rewrite squeeze_column.
    by destruct (data_lines 1 ls) as [| v1 [| v2 l]].
  - eapply Forall_impl; [apply data_lines_nonempty |].
    intros [| v vals] Hne; [done | reflexivity].
Qed.

Lemma mapM_option_map {A B} (f : A -> option B) (g : A -> B) (l : list A) :
  Forall (fun x => f x = Some (g x)) l -> mapM (M := option) f l = Some (map g l).
Proof.
  induction 1 as [| x l Hx _ IH]; simpl; [done |].
  rewrite Hx. simpl. rewrite IH. done.
Qed.

Lemma mapM_option_none {A B} (f : A -> option B) (l : list A) :
  Exists (fun x => f x = None) l -> mapM (M := option) f l = None.
Proof.
  induction 1 as [x l Hx | x l _ IH]; simpl.
  - by rewrite Hx.
  - destruct (f x); simpl; [| done]. by rewrite IH.
Qed.

Lemma raw_label_row_length (vals : list string) :
  (19 <= length vals)%nat -> length (raw_label_row vals) = 14%nat.
Proof. intros H. unfold raw_label_row. rewrite length_take, length_drop. lia. Qed.

Lemma lookup_map {A B} (f : A -> B) (l : list A) (i : nat) :
  map f l !! i = f <$> l !! i.
Proof.
  revert i. induction l as [| x l IH]; intros [| i]; simpl; done.
Qed.

Section Properties.

Variable py_float : string -> option Q.
Variable resample : image -> Z * Z -> Z -> Z -> Z.
Variable extract_archive : string -> io unit.

Lemma stored_label_row_length (vals : list string) :
  (19 <= length vals)%nat -> length (stored_label_row py_float vals) = 14%nat.
Proof.
  intros H. unfold stored_label_row. rewrite !length_map.
  by apply raw_label_row_length.
Qed.

Lemma genfromtxt_labels (fs : filesystem) (fname : string) (ls : list (list string)) :
  fs !! fname = Some (File (Lines ls)) ->
  Forall (fun vals => (19 <= length vals)%nat) (data_lines 1 ls) ->
  genfromtxt py_float fs fname 1 (seq 5 14) 0 =
  Ok (squeeze (map (fun vals => map (loose_call py_float 0) (raw_label_row vals))
                 (data_lines 1 ls))).
Proof.
  intros Hf Hw. unfold genfromtxt, read_lines. rewrite Hf.
  cbn [mbind result_bind].
  rewrite (mapM_option_map _ raw_label_row).
  - by rewrite map_map.
  - eapply Forall_impl; [exact Hw |].
    intros vals Hlen. cbn beta in Hlen. apply lookup_columns. lia.
Qed.

Lemma genfromtxt_short_line (fs : filesystem) (fname : string) (ls : list (list string)) :
  fs !! fname = Some (File (Lines ls)) ->
  Exists (fun vals => (length vals < 19)%nat) (data_lines 1 ls) ->
  genfromtxt py_float fs fname 1 (seq 5 14) 0 = Raise ValueError.
Proof.
  intros Hf Hs. unfold genfromtxt, read_lines. rewrite Hf.
  cbn [mbind result_bind].
  rewrite mapM_option_none; [done |].
  eapply Exists_impl; [exact Hs |].
  intros vals Hlen. cbn beta in Hlen. apply lookup_columns_short; lia.
Qed.

(** What [build_index] stores for a manifest whose data lines all reach
    the last label column: numpy drops the row axis of a single line. *)
Lemma build_index_ok (fs : filesystem) (index_location split : string)
    (ls : list (list string)) :
  fs !! os_path_join index_location (split +:+ ".csv") = Some (File (Lines ls)) ->
  Forall (fun vals => (19 <= length vals)%nat) (data_lines 1 ls) ->
  build_index py_float index_location split fs =
  Ok (match data_lines 1 ls with
      | [vals] => Array0 (first_column vals)
      | rows => Array1 (map first_column rows)
      end,
      match data_lines 1 ls with
      | [] => Array1 []
      | [vals] => Array1 (stored_label_row py_float vals)
      | rows => Array2 (map (stored_label_row py_float) rows)
      end).
Proof.
  intros Hf Hw. unfold build_index.
  rewrite (loadtxt_first_column _ _ _ Hf). cbn [mbind result_bind].
  rewrite label_columns, (genfromtxt_labels _ _ _ Hf Hw). cbn [mbind result_bind].
  do 2 f_equal.
  rewrite squeeze_wide.
  - destruct (data_lines 1 ls) as [| v1 [| v2 rows]]; try reflexivity.
    unfold maximum, ndarray_map, stored_label_row, impute_missing_to_zero, loose_call.
    f_equal. rewrite map_map. done.
  - apply Forall_map. eapply Forall_impl; [exact Hw |].
    intros vals Hlen. simpl in *. rewrite length_map, raw_label_row_length; lia.
Qed.

(** [build_index] succeeds on exactly the readable manifests whose data
    lines all reach the last label column. *)
Lemma build_index_succeeds_iff (fs : filesystem) (index_location split : string) :
  (exists r, build_index py_float index_location split fs = Ok r) <->
  (exists ls,
      fs !! os_path_join index_location (split +:+ ".csv") = Some (File (Lines ls))
      /\ Forall (fun vals => (19 <= length vals)%nat) (data_lines 1 ls)).
Proof.
  split.
  - intros [r Hr].
    destruct (fs !! os_path_join index_location (split +:+ ".csv")) as [[| [ls | im |]] |] eqn:Hf;
      try (unfold build_index, loadtxt, read_lines in Hr; rewrite Hf in Hr; discriminate).
    exists ls. split; [done |].
    destruct (decide (Forall (fun vals : list string => (19 <= length vals)%nat)
                        (data_lines 1 ls))) as [Hall | Hex];
      [done | exfalso].
    apply not_Forall_Exists in Hex; [| solve_decision].
    unfold build_index in Hr.
    rewrite (loadtxt_first_column _ _ _ Hf) in Hr. cbn [mbind result_bind] in Hr.
    rewrite label_columns, (genfromtxt_short_line _ _ ls) in Hr; [discriminate | done |].
    eapply Exists_impl; [exact Hex |]. intros vals Hlen. simpl in Hlen. lia.
  - intros (ls & Hf & Hw). eexists. by apply build_index_ok.
Qed.

Lemma stored_code_row (cells : list string) :
  Forall2 (stored_code py_float) cells
    (map (fun v => Qmaximum v 0) (map (impute_missing_to_zero py_float) cells)).
Proof.
  induction cells as [| cell cells IH]; simpl; constructor; [| exact IH].
  unfold stored_code, impute_missing_to_zero, Qmaximum.
  destruct (py_float cell) as [v |]; [| reflexivity].
  destruct (Qlt_le_dec v 0) as [Hneg | Hpos].
  - assert (Qle_bool v 0 = true) as ->; [| reflexivity].
    apply Qle_bool_iff. by apply Qlt_le_weak.
  - destruct (Qle_bool v 0) eqn:Hle; [| reflexivity].
    apply Qle_bool_iff in Hle. symmetry. by apply Qle_antisym.
Qed.

(** C1. For every data line of the split manifest, the stored label row is
    the raw row (columns 5 to 18) with each cell that is not a number
    imputed to 0 and each value then replaced by its maximum with 0, so
    that a missing or negative code is stored as 0 and any other code as
    itself; the raw codes -1, missing, 1, 0 are stored as 0, 0, 1, 0. *)
Theorem build_index_impute_clamp (fs : filesystem) (index_location split : string)
    (ls : list (list string)) :
  fs !! os_path_join index_location (split +:+ ".csv") = Some (File (Lines ls)) ->
  Forall (fun vals => (19 <= length vals)%nat) (data_lines 1 ls) ->
  exists fnames labels,
    build_index py_float index_location split fs = Ok (fnames, labels) /\
    (forall i vals, data_lines 1 ls !! i = Some vals ->
       exists stored,
         stored_row labels i = Some stored /\
         stored = stored_label_row py_float vals /\
         Forall2 (stored_code py_float) (raw_label_row vals) stored) /\
    (py_float "-1" = Some (-1)%Q -> py_float "" = None ->
     py_float "1" = Some 1%Q -> py_float "0" = Some 0%Q ->
     maximum (Array1 (map (loose_call py_float 0) ["-1"; ""; "1"; "0"]%string)) 0
     = Array1 [0; 0; 1; 0]%Q).
Proof.
  intros Hf Hw. do 2 eexists. split; [by apply build_index_ok |]. split.
  - intros i vals Hi. exists (stored_label_row py_float vals).
    split; [| split; [reflexivity | apply stored_code_row]].
    destruct (data_lines 1 ls) as [| v1 [| v2 rows]] eqn:HD.
    + done.
    + destruct i as [| i]; simpl in Hi; [| done].
      by injection Hi as ->.
    + unfold stored_row. rewrite lookup_map, Hi. done.
  - intros Hm He H1 H0. unfold maximum, loose_call. simpl.
    rewrite Hm, He, H1, H0. reflexivity.
Qed.

(** ** Padding *)

Lemma ceil_half (gap : Z) : (gap + gap mod 2) / 2 = gap - gap / 2.
Proof. Z.div_mod_to_equations. lia. Qed.

Lemma pad_amounts_taller (h w : Z) :
  h > w -> pad_amounts h w = ((h - w) / 2, 0, (h - w) - (h - w) / 2, 0).
Proof.
  intros H. unfold pad_amounts.
  assert ((h >? w) = true) as -> by (apply Z.gtb_lt; lia).
  cbv zeta. by rewrite ceil_half.
Qed.

Lemma pad_amounts_square (h : Z) :
  pad_amounts h h = (224 - h, 224 - h, 0, 0).
Proof.
  unfold pad_amounts.
  assert ((h >? h) = false) as -> by (rewrite Z.gtb_ltb; apply Z.ltb_irrefl).
  by rewrite Z.eqb_refl.
Qed.

Lemma pad_amounts_wider (h w : Z) :
  h < w -> pad_amounts h w = (0, (w - h) / 2, 0, (w - h) - (w - h) / 2).
Proof.
  intros H. unfold pad_amounts.
  assert ((h >? w) = false) as -> by (rewrite Z.gtb_ltb; apply Z.ltb_ge; lia).
  assert ((h =? w) = false) as -> by (apply Z.eqb_neq; lia).
  cbv zeta. by rewrite ceil_half.
Qed.

Lemma padding_step_unfold (img : tensor) (c h w : Z) :
  t_shape img = (c, h, w) -> padding_step img = Pad (pad_amounts h w) img.
Proof. intros Hs. unfold padding_step. by rewrite Hs. Qed.

Lemma Pad_shape (pl pt pr pb : Z) (img : tensor) (c h w : Z) :
  t_shape img = (c, h, w) ->
  t_shape (Pad (pl, pt, pr, pb) img) = (c, pt + h + pb, pl + w + pr).
Proof. intros Hs. unfold Pad. by rewrite Hs. Qed.

Lemma Pad_data (pl pt pr pb : Z) (img : tensor) (c h w : Z) (k i j : Z) :
  t_shape img = (c, h, w) ->
  t_data (Pad (pl, pt, pr, pb) img) k i j =
  if (pt <=? i) && (i <? pt + h) && (pl <=? j) && (j <? pl + w)
  then t_data img k (i - pt) (j - pl)
  else 0%Q.
Proof. intros Hs. unfold Pad. by rewrite Hs. Qed.

(** The padded tensor is 224 by 224 as soon as the tensor is square or its
    longer side is 224. *)
Lemma padding_step_shape (img : tensor) (c h w : Z) :
  t_shape img = (c, h, w) ->
  h = w \/ Z.max h w = 224 ->
  t_shape (padding_step img) = (c, 224, 224).
Proof.
  intros Hs Hhw. rewrite (padding_step_unfold _ _ _ _ Hs).
  destruct (Z.lt_trichotomy h w) as [Hlt | [-> | Hgt]].
  - rewrite (pad_amounts_wider _ _ Hlt), (Pad_shape _ _ _ _ _ _ _ _ Hs).
    do 2 f_equal; lia.
  - rewrite pad_amounts_square, (Pad_shape _ _ _ _ _ _ _ _ Hs).
    do 2 f_equal; lia.
  - rewrite (pad_amounts_taller h w) by lia.
    rewrite (Pad_shape _ _ _ _ _ _ _ _ Hs).
    do 2 f_equal; lia.
Qed.

(** C2. When the resized image is square with a side h other than 224,
    the tuple handed to Pad is (left, top, right, bottom) =
    (224 - h, 224 - h, 0, 0): the whole gap goes to the top and to the left
    and nothing to the bottom and right, the old content sits at offset
    (gap, gap) in a 224 by 224 result, and everything above or left of it
    is fill; for a 223 by 223 image the pads are 1, 1, 0, 0. *)
Theorem pad_equal_sides (img : tensor) (c h : Z) :
  t_shape img = (c, h, h) -> h <> 224 ->
  pad_amounts h h = (224 - h, 224 - h, 0, 0) /\
  t_shape (padding_step img) = (c, 224, 224) /\
  (forall k i j, 0 <= i < h -> 0 <= j < h ->
     t_data (padding_step img) k ((224 - h) + i) ((224 - h) + j) = t_data img k i j) /\
  (forall k i j, i < 224 - h \/ j < 224 - h -> t_data (padding_step img) k i j = 0%Q) /\
  (h = 223 -> pad_amounts h h = (1, 1, 0, 0)).
Proof.
  intros Hs Hne. split; [apply pad_amounts_square |].
  split; [apply (padding_step_shape _ _ _ _ Hs); by left |].
  rewrite (padding_step_unfold _ _ _ _ Hs), pad_amounts_square.
  split; [| split].
  - intros k i j Hi Hj. rewrite (Pad_data _ _ _ _ _ _ _ _ _ _ _ Hs).
    assert ((224 - h <=? 224 - h + i) = true) as -> by (apply Z.leb_le; lia).
    assert ((224 - h + i <? 224 - h + h) = true) as -> by (apply Z.ltb_lt; lia).
    assert ((224 - h <=? 224 - h + j) = true) as -> by (apply Z.leb_le; lia).
    assert ((224 - h + j <? 224 - h + h) = true) as -> by (apply Z.ltb_lt; lia).
    simpl. f_equal; lia.
  - intros k i j Hij. rewrite (Pad_data _ _ _ _ _ _ _ _ _ _ _ Hs).
    destruct Hij as [Hi | Hj].
    + assert ((224 - h <=? i) = false) as -> by (apply Z.leb_gt; lia). done.
    + assert ((224 - h <=? j) = false) as -> by (apply Z.leb_gt; lia).
      by rewrite andb_false_r.
  - intros ->. reflexivity.
Qed.

(** C3. When the resized height exceeds the width, the gap h - w is split
    into a left pad of gap // 2 and a right pad of gap - gap // 2 with no
    vertical padding; when the width exceeds the height, the gap w - h is
    split the same way into a top and a bottom pad with no horizontal
    padding.  In both branches the two pads sum to the gap, the second is
    the first or one more, and the result is square; a 201 by 150 image
    gets left 25 and right 26. *)
Theorem pad_unequal_sides (img : tensor) (c h w : Z) :
  t_shape img = (c, h, w) ->
  (h > w ->
     pad_amounts h w = ((h - w) / 2, 0, (h - w) - (h - w) / 2, 0) /\
     (h - w) / 2 + ((h - w) - (h - w) / 2) = h - w /\
     0 <= ((h - w) - (h - w) / 2) - (h - w) / 2 <= 1 /\
     t_shape (padding_step img) = (c, h, h)) /\
  (h < w ->
     pad_amounts h w = (0, (w - h) / 2, 0, (w - h) - (w - h) / 2) /\
     (w - h) / 2 + ((w - h) - (w - h) / 2) = w - h /\
     0 <= ((w - h) - (w - h) / 2) - (w - h) / 2 <= 1 /\
     t_shape (padding_step img) = (c, w, w)) /\
  (h = 201 -> w = 150 -> pad_amounts h w = (25, 0, 26, 0)).
Proof.
  intros Hs. rewrite (padding_step_unfold _ _ _ _ Hs). split; [| split].
  - intros Hgt. rewrite (pad_amounts_taller _ _ Hgt), (Pad_shape _ _ _ _ _ _ _ _ Hs).
    repeat split; try (Z.div_mod_to_equations; lia).
    do 2 f_equal; lia.
  - intros Hlt. rewrite (pad_amounts_wider _ _ Hlt), (Pad_shape _ _ _ _ _ _ _ _ Hs).
    repeat split; try (Z.div_mod_to_equations; lia).
    do 2 f_equal; lia.
  - intros -> ->. reflexivity.
Qed.

(** ** Resizing *)

Lemma resized_output_size (h w : Z) :
  1 <= h -> 1 <= w ->
  exists nh nw,
    compute_resized_output_size (h, w) 223 (Some 224) = Ok (nh, nw) /\
    0 <= nh <= 224 /\ 0 <= nw <= 224 /\
    (nh = nw \/ Z.max nh nw = 224) /\
    (Z.max h w <= 224 * Z.min h w -> 1 <= nh /\ 1 <= nw).
Proof.
  intros Hh Hw. unfold compute_resized_output_size.
  destruct (Z.leb_spec w h) as [Hle | Hlt].
  - assert ((w =? 0) = false) as -> by (apply Z.eqb_neq; lia).
    cbv zeta. rewrite Z.quot_div_nonneg by lia.
    assert (Hnl : 223 <= 223 * h / w) by (apply Z.div_le_lower_bound; nia).
    change (224 <=? 223) with false. cbv iota.
    destruct (Z.gtb_spec (223 * h / w) 224) as [Hbig | Hsmall]; cbn [mbind result_bind].
    + rewrite Z.quot_div_nonneg by lia.
      assert (0 <= 224 * 223 / (223 * h / w)) by (apply Z.div_pos; lia).
      assert (224 * 223 / (223 * h / w) < 224) by (apply Z.div_lt_upper_bound; lia).
      do 2 eexists. split; [reflexivity |].
      split; [lia |]. split; [lia |]. split; [lia |].
      intros Hr.
      assert (223 * h / w <= 223 * 224) by (apply Z.div_le_upper_bound; nia).
      assert (1 <= 224 * 223 / (223 * h / w)) by (apply Z.div_le_lower_bound; lia).
      lia.
    + do 2 eexists. split; [reflexivity |].
      split; [lia |]. split; [lia |]. split; [lia |]. intros _. lia.
  - assert ((h =? 0) = false) as -> by (apply Z.eqb_neq; lia).
    cbv zeta. rewrite Z.quot_div_nonneg by lia.
    assert (Hnl : 223 <= 223 * w / h) by (apply Z.div_le_lower_bound; nia).
    change (224 <=? 223) with false. cbv iota.
    destruct (Z.gtb_spec (223 * w / h) 224) as [Hbig | Hsmall]; cbn [mbind result_bind].
    + rewrite Z.quot_div_nonneg by lia.
      assert (0 <= 224 * 223 / (223 * w / h)) by (apply Z.div_pos; lia).
      assert (224 * 223 / (223 * w / h) < 224) by (apply Z.div_lt_upper_bound; lia).
      do 2 eexists. split; [reflexivity |].
      split; [lia |]. split; [lia |]. split; [lia |].
      intros Hr.
      assert (223 * w / h <= 223 * 224) by (apply Z.div_le_upper_bound; nia).
      assert (1 <= 224 * 223 / (223 * w / h)) by (apply Z.div_le_lower_bound; lia).
      lia.
    + do 2 eexists. split; [reflexivity |].
      split; [lia |]. split; [lia |]. split; [lia |]. intros _. lia.
Qed.



Lemma TRANSFORMS_ok (im : image) (w h : Z) :
  im_size im = (w, h) -> 1 <= w -> 1 <= h ->
  Z.max h w <= 224 * Z.min h w ->
  exists t nh nw,
    TRANSFORMS resample im = Ok t /\ t_shape t = (1, nh, nw) /\
    (nh = nw \/ Z.max nh nw = 224).
Proof.
  intros Hs Hw Hh Hr.
  destruct (resized_output_size h w Hh Hw) as (nh & nw & Hc & Hnh & Hnw & Hsq & Hpos).
  destruct (Hpos Hr) as [Hnh1 Hnw1].
  unfold TRANSFORMS, Resize. rewrite Hs.
  change (INPUT_SIZE.1 - 1) with 223. change (INPUT_SIZE.1) with 224.
  rewrite Hc. cbn [mbind result_bind].
  assert ((nw <? 1) = false) as -> by (apply Z.ltb_ge; lia).
  assert ((nh <? 1) = false) as -> by (apply Z.ltb_ge; lia).
  cbn [orb mbind result_bind].
  eexists _, nh, nw. split; [reflexivity |]. split; [reflexivity | exact Hsq].
Qed.

Lemma TRANSFORMS_inv (im : image) (w h : Z) (t : tensor) :
  im_size im = (w, h) -> 0 <= w -> 0 <= h ->
  TRANSFORMS resample im = Ok t ->
  exists nh nw, t_shape t = (1, nh, nw) /\ (nh = nw \/ Z.max nh nw = 224).
Proof.
  intros Hs Hw Hh Ht.
  destruct (Z.eq_dec w 0) as [-> | Hw0]; [| destruct (Z.eq_dec h 0) as [-> | Hh0]].
  - unfold TRANSFORMS, Resize in Ht. rewrite Hs in Ht.
    unfold compute_resized_output_size in Ht.
    assert ((0 <=? h) = true) as Hb by (apply Z.leb_le; lia).
    rewrite Hb in Ht. discriminate.
  - unfold TRANSFORMS, Resize in Ht. rewrite Hs in Ht.
    unfold compute_resized_output_size in Ht.
    assert ((w <=? 0) = false) as Hb by (apply Z.leb_gt; lia).
    rewrite Hb in Ht. discriminate.
  - destruct (resized_output_size h w ltac:(lia) ltac:(lia))
      as (nh & nw & Hc & Hnh & Hnw & Hsq & _).
    unfold TRANSFORMS, Resize in Ht. rewrite Hs in Ht.
    change (INPUT_SIZE.1 - 1) with 223 in Ht. change (INPUT_SIZE.1) with 224 in Ht.
    rewrite Hc in Ht. cbn [mbind result_bind] in Ht.
    destruct ((nw <? 1) || (nh <? 1)); cbn [mbind result_bind] in Ht; [discriminate |].
    injection Ht as <-. exists nh, nw. split; [reflexivity | exact Hsq].
Qed.

(** ** Label selection *)

Lemma select_canonical (row : list Q) :
  length row = 14%nat ->
  exists selected,
    getitem_array (Array1 row) CHEXPERT_LABELS_IDX = Ok (Array1 selected) /\
    long (Array1 selected) = Array1 (canonical_labels row).
Proof.
  intros Hlen.
  do 15 (destruct row as [| ? row]; [discriminate Hlen || (eexists; split; vm_compute; reflexivity) |]).
  discriminate Hlen.
Qed.

(** ** Objects with a built index *)

Lemma built_from_inv (self : CheXpert_Full) (ls : list (list string)) :
  built_from py_float self ls ->
  Forall (fun vals => (19 <= length vals)%nat) (data_lines 1 ls) /\
  fnames self = match data_lines 1 ls with
                | [vals] => Array0 (first_column vals)
                | rows => Array1 (map first_column rows)
                end /\
  labels self = match data_lines 1 ls with
                | [] => Array1 []
                | [vals] => Array1 (stored_label_row py_float vals)
                | rows => Array2 (map (stored_label_row py_float) rows)
                end.
Proof.
  intros (fs0 & Hf & Hb).
  assert (Hw : Forall (fun vals => (19 <= length vals)%nat) (data_lines 1 ls)).
  { destruct (proj1 (build_index_succeeds_iff fs0 (index_location self) (split self)))
      as (ls' & Hf' & Hw'); [eauto |].
    rewrite Hf in Hf'. by injection Hf' as <-. }
  split; [exact Hw |].
  rewrite (build_index_ok _ _ _ _ Hf Hw) in Hb.
  injection Hb as <- <-. done.
Qed.

Lemma built_len (self : CheXpert_Full) (ls : list (list string)) :
  built_from py_float self ls ->
  __len__ self = match data_lines 1 ls with
                 | [vals] => Raise IndexError
                 | rows => Ok (Z.of_nat (length rows))
                 end.
Proof.
  intros Hb. destruct (built_from_inv _ _ Hb) as (_ & Hn & _).
  unfold __len__. rewrite Hn.
  destruct (data_lines 1 ls) as [| v1 [| v2 rows]]; try reflexivity.
  unfold shape, tuple_get. simpl. by rewrite !length_map.
Qed.

(** An object that reports a length has one file name and one stored label
    row per data line. *)
Lemma built_with_len (self : CheXpert_Full) (ls : list (list string)) (n : Z) :
  built_from py_float self ls -> __len__ self = Ok n ->
  n = Z.of_nat (length (data_lines 1 ls)) /\
  Forall (fun vals => (19 <= length vals)%nat) (data_lines 1 ls) /\
  fnames self = Array1 (map first_column (data_lines 1 ls)) /\
  (n <> 0 -> labels self = Array2 (map (stored_label_row py_float) (data_lines 1 ls))).
Proof.
  intros Hb Hn. rewrite (built_len _ _ Hb) in Hn.
  destruct (built_from_inv _ _ Hb) as (Hw & Hf & Hl).
  destruct (data_lines 1 ls) as [| v1 [| v2 rows]]; [| discriminate |].
  - injection Hn as <-. done.
  - injection Hn as <-. done.
Qed.


(** The sample at a position of an object with a one-dimensional array of
    names and a matrix of label rows: what remains to be done is to load
    and transform the image. *)
Lemma getitem_rows (self : CheXpert_Full) (fs : filesystem)
    (names : list string) (rows : list (list Q)) (p : Z) (k : nat)
    (fname : string) (row : list Q) :
  fnames self = Array1 names -> labels self = Array2 rows ->
  length rows = length names ->
  axis_index (length names) p = Ok k ->
  names !! k = Some fname -> rows !! k = Some row -> length row = 14%nat ->
  __getitem__ resample self fs p
  = (im ← Image_open fs (os_path_join (root self) fname);
     t ← TRANSFORMS resample im;
     Ok (p, padding_step t, Array1 (canonical_labels row))).
Proof.
  intros Hn Hl Hlen Hk Hname Hrow Hrl.
  destruct (select_canonical row Hrl) as (selected & Hsel & Hlong).
  unfold __getitem__.
  rewrite Hn, (getitem_Array1 _ _ _ _ Hk Hname). cbn [mbind result_bind item].
  destruct (Image_open fs (os_path_join (root self) fname)) as [im | e];
    cbn [mbind result_bind]; [| reflexivity].
  destruct (TRANSFORMS resample im) as [t | e]; cbn [mbind result_bind]; [| reflexivity].
  rewrite <- Hlen in Hk.
  rewrite Hl, (getitem_Array2 _ _ _ _ Hk Hrow). cbn [mbind result_bind].
  rewrite Hsel. cbn [mbind result_bind]. by rewrite Hlong.
Qed.

(** The same for an object with a built index that reports a length. *)
Lemma getitem_built (self : CheXpert_Full) (ls : list (list string)) (fs : filesystem)
    (n p : Z) (k : nat) (vals : list string) :
  built_from py_float self ls -> __len__ self = Ok n ->
  axis_index (Z.to_nat n) p = Ok k ->
  data_lines 1 ls !! k = Some vals ->
  __getitem__ resample self fs p
  = (im ← Image_open fs (os_path_join (root self) (first_column vals));
     t ← TRANSFORMS resample im;
     Ok (p, padding_step t,
         Array1 (canonical_labels (stored_label_row py_float vals)))).
Proof.
  intros Hb Hn Hk Hv.
  destruct (built_with_len _ _ _ Hb Hn) as (-> & Hw & Hf & Hl).
  rewrite Nat2Z.id in Hk.
  assert (Hn0 : Z.of_nat (length (data_lines 1 ls)) <> 0).
  { apply lookup_lt_Some in Hv. lia. }
  eapply getitem_rows; try eassumption.
  - by apply Hl.
  - by rewrite !length_map.
  - by rewrite length_map.
  - by rewrite lookup_map, Hv.
  - by rewrite lookup_map, Hv.
  - apply stored_label_row_length.
    rewrite Forall_forall in Hw. apply Hw. eapply list_elem_of_lookup_2. exact Hv.
Qed.

(** A position of [0, n) names a data line. *)
Lemma valid_position (ls : list (list string)) (n p : Z) :
  n = Z.of_nat (length (data_lines 1 ls)) -> 0 <= p < n ->
  axis_index (Z.to_nat n) p = Ok (Z.to_nat p) /\
  exists vals, data_lines 1 ls !! Z.to_nat p = Some vals.
Proof.
  intros -> Hp. split.
  - apply axis_index_nonneg. lia.
  - apply lookup_lt_is_Some_2. lia.
Qed.

Lemma canonical_labels_lookup (row : list Q) (j : nat) (name : string) :
  length row = 14%nat ->
  canonical_class_ordering !! j = Some name ->
  canonical_labels row !! j = Qtrunc <$> row !! raw_column name.
Proof.
  intros Hlen Hj.
  do 15 (destruct row as [| ? row]; [try discriminate Hlen |]); [| discriminate Hlen].
  do 14 (destruct j as [| j]; [injection Hj as <-; vm_compute; reflexivity |]).
  discriminate Hj.
Qed.

Lemma canonical_labels_length (row : list Q) : length (canonical_labels row) = 14%nat.
Proof. unfold canonical_labels. by rewrite length_map. Qed.



(** ** Label values *)





(** ** Positions *)


(** ** The duplicated class *)

Lemma canonical_labels_ignore_first (row row' : list Q) :
  length row = 14%nat -> length row' = 14%nat ->
  (forall k, k <> 0%nat -> row !! k = row' !! k) ->
  canonical_labels row = canonical_labels row'.
Proof.
  intros Hlen Hlen' Hk.
  do 15 (destruct row as [| ? row]; [try discriminate Hlen |]); [| discriminate Hlen].
  do 15 (destruct row' as [| ? row']; [try discriminate Hlen' |]); [| discriminate Hlen'].
  pose proof (Hk 1%nat ltac:(lia)). pose proof (Hk 2%nat ltac:(lia)).
  pose proof (Hk 3%nat ltac:(lia)). pose proof (Hk 4%nat ltac:(lia)).
  pose proof (Hk 5%nat ltac:(lia)). pose proof (Hk 6%nat ltac:(lia)).
  pose proof (Hk 7%nat ltac:(lia)). pose proof (Hk 8%nat ltac:(lia)).
  pose proof (Hk 9%nat ltac:(lia)). pose proof (Hk 10%nat ltac:(lia)).
  pose proof (Hk 11%nat ltac:(lia)). pose proof (Hk 12%nat ltac:(lia)).
  pose proof (Hk 13%nat ltac:(lia)).
  simpl in *. simplify_eq. reflexivity.
Qed.

Lemma stored_label_row_agree (vals vals' : list string) :
  (forall j, j <> 5%nat -> vals !! j = vals' !! j) ->
  forall k, k <> 0%nat ->
  stored_label_row py_float vals !! k = stored_label_row py_float vals' !! k.
Proof.
  intros Hj k Hk. unfold stored_label_row, raw_label_row.
  rewrite !lookup_map.
  destruct (decide (k < 14)%nat) as [Hlt | Hge].
  - rewrite !lookup_take_lt, !lookup_drop by lia. rewrite Hj by lia. done.
  - rewrite !lookup_take_ge by lia. done.
Qed.

Lemma first_column_agree (vals vals' : list string) :
  (forall j, j <> 5%nat -> vals !! j = vals' !! j) ->
  first_column vals = first_column vals'.
Proof.
  intros Hj. unfold first_column. rewrite !head_lookup. by rewrite (Hj 0%nat).
Qed.

(** C10. For a valid position p of an object with a built index, every
    label tensor that getItem(p) returns has equal entries at slots 0 and
    8, and getItem(p) does return one whenever the image of the row loads
    and is transformed.  The "No Finding" cell (manifest column 5, raw
    label index 0) has no influence: an object built from a manifest that
    differs in that column only materialises exactly the same samples. *)
Theorem getitem_atelectasis_twice (self : CheXpert_Full) (ls : list (list string))
    (fs : filesystem) (n p : Z) :
  built_from py_float self ls -> __len__ self = Ok n -> 0 <= p < n ->
  (forall i img label,
     __getitem__ resample self fs p = Ok (i, img, label) ->
     exists entries x,
       label = Array1 entries /\
       entries !! 0%nat = Some x /\ entries !! 8%nat = Some x) /\
  (exists vals,
     data_lines 1 ls !! Z.to_nat p = Some vals /\
     forall im t,
       Image_open fs (os_path_join (root self) (first_column vals)) = Ok im ->
       TRANSFORMS resample im = Ok t ->
       exists img label, __getitem__ resample self fs p = Ok (p, img, label)) /\
  (forall self' ls',
     built_from py_float self' ls' -> root self' = root self ->
     Forall2 (fun vals vals' => forall j, j <> 5%nat -> vals !! j = vals' !! j)
       (data_lines 1 ls) (data_lines 1 ls') ->
     __getitem__ resample self' fs p = __getitem__ resample self fs p).
Proof.
  intros Hb Hn Hp.
  destruct (built_with_len _ _ _ Hb Hn) as (Hlen & Hw & Hf & Hl).
  destruct (valid_position ls n p Hlen Hp) as [Hk [vals Hv]].
  assert (Hrl : length (stored_label_row py_float vals) = 14%nat).
  { apply stored_label_row_length.
    rewrite Forall_forall in Hw. apply Hw. eapply list_elem_of_lookup_2. exact Hv. }
  split; [| split].
  - intros i img label. rewrite (getitem_built _ _ fs _ _ _ _ Hb Hn Hk Hv).
    destruct (Image_open _ _) as [im | e]; cbn [mbind result_bind]; [| discriminate].
    destruct (TRANSFORMS resample im) as [t | e]; cbn [mbind result_bind]; [| discriminate].
    intros [= _ _ <-].
    destruct (lookup_lt_is_Some_2 (stored_label_row py_float vals) 8 ltac:(lia))
      as [x Hx].
    exists (canonical_labels (stored_label_row py_float vals)), (Qtrunc x).
    split; [reflexivity |].
    rewrite (canonical_labels_lookup _ 0 "Atelectasis" Hrl eq_refl).
    rewrite (canonical_labels_lookup _ 8 "Atelectasis" Hrl eq_refl).
    change (raw_column "Atelectasis") with 8%nat. by rewrite Hx.
  - exists vals. split; [exact Hv |]. intros im t Him Ht.
    rewrite (getitem_built _ _ fs _ _ _ _ Hb Hn Hk Hv).
    rewrite Him. cbn [mbind result_bind]. rewrite Ht. eauto.
  - intros self' ls' Hb' Hroot Hagree.
    assert (Hsame : length (data_lines 1 ls') = length (data_lines 1 ls)).
    { symmetry. by eapply Forall2_length. }
    assert (Hn' : __len__ self' = Ok n).
    { rewrite (built_len _ _ Hb'). rewrite (built_len _ _ Hb) in Hn.
      destruct (data_lines 1 ls) as [| v1 [| v2 rows]],
               (data_lines 1 ls') as [| v1' [| v2' rows']];
        simpl in Hsame; try discriminate; try done.
      rewrite <- Hn. do 2 f_equal. simpl. lia. }
    destruct (Forall2_lookup_l _ _ _ _ _ Hagree Hv) as (vals' & Hv' & Hj).
    rewrite (getitem_built _ _ fs _ _ _ _ Hb Hn Hk Hv).
    rewrite (getitem_built _ _ fs _ _ _ _ Hb' Hn' Hk Hv').
    rewrite Hroot, <- (first_column_agree _ _ Hj).
    assert (Hrl' : length (stored_label_row py_float vals') = 14%nat).
    { destruct (built_from_inv _ _ Hb') as (Hw' & _ & _).
      apply stored_label_row_length.
      rewrite Forall_forall in Hw'. apply Hw'. eapply list_elem_of_lookup_2. exact Hv'. }
    rewrite (canonical_labels_ignore_first _ _ Hrl Hrl'
               (stored_label_row_agree _ _ Hj)).
    reflexivity.
Qed.

(** ** Index construction *)

Lemma build_index_absent (fs : filesystem) (index_location split : string) :
  fs !! os_path_join index_location (split +:+ ".csv") = None ->
  build_index py_float index_location split fs = Raise OSError.
Proof. intros Hf. unfold build_index, loadtxt, read_lines. by rewrite Hf. Qed.



(** C8. For an object whose index was built from a manifest with N data
    lines, N other than one, length() is N and the path at position i is
    the first field of data line i, in manifest order.  With exactly one
    data line numpy squeezes the path array to rank 0: length() raises an
    IndexError and so does every read of a path. *)
Theorem len_and_path_order (self : CheXpert_Full) (ls : list (list string)) :
  built_from py_float self ls ->
  (length (data_lines 1 ls) <> 1%nat ->
   __len__ self = Ok (Z.of_nat (length (data_lines 1 ls))) /\
   forall i vals,
     data_lines 1 ls !! i = Some vals ->
     getitem (fnames self) (Z.of_nat i) = Ok (Array0 (first_column vals))) /\
  (length (data_lines 1 ls) = 1%nat ->
   __len__ self = Raise IndexError /\
   forall p, getitem (fnames self) p = Raise IndexError).
Proof.
  intros Hb. pose proof (built_len _ _ Hb) as Hlen.
  destruct (built_from_inv _ _ Hb) as (Hw & Hf & _).
  split.
  - intros HN.
    assert (Hf' : fnames self = Array1 (map first_column (data_lines 1 ls))).
    { rewrite Hf. by destruct (data_lines 1 ls) as [| v1 [| v2 rows]]. }
    split.
    + rewrite Hlen. by destruct (data_lines 1 ls) as [| v1 [| v2 rows]].
    + intros i vals Hv. rewrite Hf'.
      apply (getitem_Array1 _ _ i).
      * rewrite length_map. rewrite axis_index_nonneg; [by rewrite Nat2Z.id |].
        apply lookup_lt_Some in Hv. lia.
      * by rewrite lookup_map, Hv.
  - intros HN.
    destruct (data_lines 1 ls) as [| v1 [| v2 rows]]; try discriminate HN.
    split; [exact Hlen |]. intros p. by rewrite Hf.
Qed.

(** ** The layout resolver *)

Lemma length_append (a b : string) :
  String.length (a +:+ b) = (String.length a + String.length b)%nat.
Proof. induction a as [| c a IH]; simpl; [done | by rewrite IH]. Qed.

Lemma os_path_join_longer (a b : string) :
  startswith_sep b = false -> (0 < String.length b)%nat ->
  (String.length a < String.length (os_path_join a b))%nat.
Proof.
  intros Hb Hlen. unfold os_path_join. rewrite Hb.
  destruct (_ || _); rewrite !length_append; simpl; lia.
Qed.

Lemma parents_from_length (seen rest q : string) :
  q ∈ parents_from seen rest ->
  (String.length q < String.length seen + String.length rest)%nat.
Proof.
  revert seen. induction rest as [| c rest IH]; intros seen Hq; simpl in Hq.
  - by apply elem_of_nil in Hq.
  - assert (Hrec : q ∈ parents_from (seen +:+ String c "") rest ->
                   (String.length q < String.length seen + S (String.length rest))%nat).
    { intros H. apply IH in H. rewrite length_append in H. simpl in H. lia. }
    simpl. destruct (_ && _).
    + apply elem_of_cons in Hq as [-> | Hq]; [lia | by apply Hrec].
    + by apply Hrec.
Qed.

Lemma mkdirs_frame (ps : list string) (fs : filesystem) (p : string) :
  p ∉ ps -> (mkdirs ps fs).2 !! p = fs !! p.
Proof.
  revert fs. induction ps as [| q ps IH]; intros fs Hp; simpl; [done |].
  apply not_elem_of_cons in Hp as [Hne Hp].
  destruct (fs !! q) as [[| c] |] eqn:Hq; simpl.
  - by apply IH.
  - done.
  - rewrite IH by done. by apply lookup_insert_ne.
Qed.

Lemma makedirs_frame (name : string) (fs : filesystem) (p : string) :
  (String.length name < String.length p)%nat ->
  (makedirs name fs).2 !! p = fs !! p.
Proof.
  intros Hlen. unfold makedirs. apply mkdirs_frame.
  intros Hin. apply elem_of_app in Hin as [Hin | Hin].
  - apply parents_from_length in Hin. simpl in Hin. lia.
  - apply list_elem_of_singleton in Hin. subst. lia.
Qed.

Lemma makedirs_exists (name : string) (fs fs1 : filesystem) (r : result unit)
    (p : string) :
  makedirs name fs = (r, fs1) ->
  (String.length name < String.length p)%nat ->
  os_path_exists fs1 p = os_path_exists fs p.
Proof.
  intros Hmk Hlen. unfold os_path_exists.
  replace fs1 with (makedirs name fs).2 by (by rewrite Hmk).
  by rewrite makedirs_frame.
Qed.

Lemma extracted_dir_longer (root : string) :
  (String.length root < String.length (extracted_dir root))%nat.
Proof. apply os_path_join_longer; [reflexivity | simpl; lia]. Qed.

Lemma archive_path_longer (root : string) :
  (String.length root < String.length (archive_path root))%nat.
Proof. apply os_path_join_longer; [reflexivity | simpl; lia]. Qed.

(** [find_data] once the dataset directory has been made. *)
Lemma find_data_made (root : string) (fs fs1 : filesystem) :
  makedirs root fs = (Ok tt, fs1) ->
  find_data extract_archive root fs =
  if negb (os_path_exists fs (extracted_dir root) || os_path_exists fs (archive_path root))
  then (Raise RuntimeError, fs1)
  else
    let after :=
      if os_path_exists fs (extracted_dir root) then (Ok tt, fs1)
      else if os_path_exists fs (archive_path root)
           then extract_archive (archive_path root) fs1
           else (Ok tt, fs1) in
    match after with
    | (Ok _, fs2) =>
        (if os_path_exists fs2 (extracted_dir root) then Ok (extracted_dir root)
         else if os_path_exists fs2 (archive_path root) then Ok (archive_path root)
         else Raise FileNotFoundError, fs2)
    | (Raise e, fs2) => (Raise e, fs2)
    end.
Proof.
  intros Hmk.
  pose proof (makedirs_exists _ _ _ _ _ Hmk (extracted_dir_longer root)) as Hd.
  pose proof (makedirs_exists _ _ _ _ _ Hmk (archive_path_longer root)) as Hz.
  unfold find_data, mbind, io_bind. rewrite Hmk.
  unfold snapshot, raise, mret, io_ret, any_exist.
  change (map (fun x => os_path_join root ("CheXpert-v1.0" +:+ x)) [""; ".zip"]%string)
    with [extracted_dir root; archive_path root].
  cbn [existsb take lookup_total list_lookup_total].
  rewrite Hd, Hz, !orb_false_r.
  destruct (os_path_exists fs (extracted_dir root)) eqn:Hed;
    destruct (os_path_exists fs (archive_path root)) eqn:Hez;
    cbn [negb orb]; try reflexivity.
  - rewrite Hd. reflexivity.
  - rewrite Hd. reflexivity.
  - destruct (extract_archive (archive_path root) fs1) as [[[] | e] fs2]; [| reflexivity].
    destruct (os_path_exists fs2 (extracted_dir root)); [reflexivity |].
    destruct (os_path_exists fs2 (archive_path root)); reflexivity.
Qed.

(** C9. Once the dataset directory has been made, the resolver raises the
    "data not found" RuntimeError when neither the extracted directory nor
    the archive exists, and (errors of the unpacking itself apart) only
    then.  When the extracted directory exists it is returned and the file
    system is left as the directory creation left it, whatever the
    unpacking would do, so a resolve that follows a successful unpacking
    does not unpack again.  Otherwise the archive is unpacked and the
    resolver returns the extracted directory if it now exists, else the
    archive path if it exists, else it raises FileNotFoundError, an error
    other than the first. *)
Theorem find_data_resolves (root : string) (fs fs1 : filesystem) :
  makedirs root fs = (Ok tt, fs1) ->
  (os_path_exists fs (extracted_dir root) = false ->
   os_path_exists fs (archive_path root) = false ->
   find_data extract_archive root fs = (Raise RuntimeError, fs1)) /\
  ((find_data extract_archive root fs).1 = Raise RuntimeError ->
   (extract_archive (archive_path root) fs1).1 <> Raise RuntimeError ->
   os_path_exists fs (extracted_dir root) = false /\
   os_path_exists fs (archive_path root) = false) /\
  (os_path_exists fs (extracted_dir root) = true ->
   find_data extract_archive root fs = (Ok (extracted_dir root), fs1)) /\
  (os_path_exists fs (extracted_dir root) = false ->
   os_path_exists fs (archive_path root) = true ->
   forall fs2,
     extract_archive (archive_path root) fs1 = (Ok tt, fs2) ->
     find_data extract_archive root fs =
     (if os_path_exists fs2 (extracted_dir root) then Ok (extracted_dir root)
      else if os_path_exists fs2 (archive_path root) then Ok (archive_path root)
      else Raise FileNotFoundError, fs2) /\
     forall fs3,
       os_path_exists fs2 (extracted_dir root) = true ->
       makedirs root fs2 = (Ok tt, fs3) ->
       find_data extract_archive root fs2 = (Ok (extracted_dir root), fs3)) /\
  RuntimeError <> FileNotFoundError.
Proof.
  intros Hmk.
  assert (Hdir : forall gs gs1,
             makedirs root gs = (Ok tt, gs1) ->
             os_path_exists gs (extracted_dir root) = true ->
             find_data extract_archive root gs = (Ok (extracted_dir root), gs1)).
  { intros gs gs1 Hg Hd. rewrite (find_data_made _ _ _ Hg), Hd. simpl.
    by rewrite (makedirs_exists _ _ _ _ _ Hg (extracted_dir_longer root)), Hd. }
  split; [| split; [| split; [| split]]].
  - intros Hd Hz. by rewrite (find_data_made _ _ _ Hmk), Hd, Hz.
  - rewrite (find_data_made _ _ _ Hmk).
    destruct (os_path_exists fs (extracted_dir root)) eqn:Hd; simpl.
    + rewrite (makedirs_exists _ _ _ _ _ Hmk (extracted_dir_longer root)), Hd.
      discriminate.
    + destruct (os_path_exists fs (archive_path root)) eqn:Hz; simpl; [| done].
      destruct (extract_archive (archive_path root) fs1) as [[[] | e] fs2]; simpl.
      * destruct (os_path_exists fs2 (extracted_dir root)); [discriminate |].
        destruct (os_path_exists fs2 (archive_path root)); discriminate.
      * intros He Hne. congruence.
  - by apply Hdir.
  - intros Hd Hz fs2 Hex. split.
    + by rewrite (find_data_made _ _ _ Hmk), Hd, Hz, Hex.
    + intros fs3 Hd2 Hmk2. by apply Hdir.
  - discriminate.
Qed.

End Properties.

(** * The theorems on the sample data *)

Lemma unpacked_valid_csv :
  unpacked !! os_path_join sample_dir ("valid" +:+ ".csv")
  = Some (File (Lines [csv_header; csv_row1; csv_row2])).
Proof. vm_compute. reflexivity. Qed.

Lemma unpacked_train_csv :
  unpacked !! os_path_join sample_dir ("train" +:+ ".csv")
  = Some (File (Lines [csv_header; csv_row1])).
Proof. vm_compute. reflexivity. Qed.

Lemma odd_split_valid_csv :
  odd_split !! os_path_join sample_dir ("valid" +:+ ".csv")
  = Some (File (Lines [csv_header; csv_row1; csv_row2; csv_row3])).
Proof. vm_compute. reflexivity. Qed.

Lemma valid_object_built :
  built_from decimal_float valid_object [csv_header; csv_row1; csv_row2].
Proof. exists unpacked. split; vm_compute; reflexivity. Qed.

Lemma train_object_built :
  built_from decimal_float train_object [csv_header; csv_row1].
Proof. exists unpacked. split; vm_compute; reflexivity. Qed.


(** The archive-only base directory resolves to the objects above. *)
Lemma sample_objects :
  sample_valid = Ok valid_object /\ sample_train = Ok train_object
  /\ sample_odd = Ok odd_object.
Proof. repeat split; vm_compute; reflexivity. Qed.

(** Witness of C1 on the validation split of the sample. *)
Lemma build_index_impute_clamp_witness :
  unpacked !! os_path_join sample_dir ("valid" +:+ ".csv")
    = Some (File (Lines [csv_header; csv_row1; csv_row2])) /\
  Forall (fun vals => (19 <= length vals)%nat)
    (data_lines 1 [csv_header; csv_row1; csv_row2]) /\
  exists fnames labels,
    build_index decimal_float sample_dir "valid" unpacked = Ok (fnames, labels) /\
    stored_row labels 1 = Some [1; 0; 0; 0; 0; 0; 0; 0; 1; 0; 0; 0; 0; 1]%Q /\
    maximum (Array1 (map (loose_call decimal_float 0) ["-1"; ""; "1"; "0"]%string)) 0
    = Array1 [0; 0; 1; 0]%Q.
Proof.
  assert (Hw : Forall (fun vals => (19 <= length vals)%nat)
                 (data_lines 1 [csv_header; csv_row1; csv_row2])).
  { vm_compute. repeat constructor. }
  split; [exact unpacked_valid_csv |]. split; [exact Hw |].
  destruct (build_index_impute_clamp decimal_float unpacked sample_dir "valid" _
              unpacked_valid_csv Hw) as (fnames & labels & Hb & Hrows & Hex).
  exists fnames, labels. split; [exact Hb |]. split.
  - destruct (Hrows 1%nat csv_row2 eq_refl) as (stored & Hst & -> & _). exact Hst.
  - apply Hex; reflexivity.
Defined.

(** Witness of C2: a 223 by 223 tensor. *)
Lemma pad_equal_sides_witness :
  t_shape (constant_tensor 1 223 223 (1 # 2)) = (1, 223, 223) /\ 223 <> 224 /\
  pad_amounts 223 223 = (1, 1, 0, 0) /\
  t_shape (padding_step (constant_tensor 1 223 223 (1 # 2))) = (1, 224, 224) /\
  t_data (padding_step (constant_tensor 1 223 223 (1 # 2))) 0 0 5 = 0%Q /\
  t_data (padding_step (constant_tensor 1 223 223 (1 # 2))) 0 1 1 = (1 # 2)%Q.
Proof.
  assert (Hne : 223 <> 224) by lia.
  destruct (pad_equal_sides (constant_tensor 1 223 223 (1 # 2)) 1 223 eq_refl Hne)
    as (Hp & Hs & Hin & Hout & H223).
  split; [reflexivity |]. split; [exact Hne |].
  split; [exact (H223 eq_refl) |]. split; [exact Hs |]. split.
  - apply Hout. left. lia.
  - apply (Hin 0 0 0); lia.
Defined.

(** Witness of C3: a 201 by 150 tensor and a 150 by 201 tensor. *)
Lemma pad_unequal_sides_witness :
  t_shape (constant_tensor 1 201 150 0) = (1, 201, 150) /\ 201 > 150 /\
  pad_amounts 201 150 = (25, 0, 26, 0) /\
  t_shape (padding_step (constant_tensor 1 201 150 0)) = (1, 201, 201) /\
  pad_amounts 150 201 = (0, 25, 0, 26).
Proof.
  assert (Hgt : 201 > 150) by lia.
  assert (Hlt : 150 < 201) by lia.
  destruct (pad_unequal_sides (constant_tensor 1 201 150 0) 1 201 150 eq_refl)
    as (Htall & _ & Hex).
  destruct (pad_unequal_sides (constant_tensor 1 150 201 0) 1 150 201 eq_refl)
    as (_ & Hwide & _).
  destruct (Htall Hgt) as (_ & _ & _ & Hs).
  destruct (Hwide Hlt) as (Hp & _).
  split; [reflexivity |]. split; [exact Hgt |].
  split; [exact (Hex eq_refl eq_refl) |]. split; [exact Hs | exact Hp].
Defined.

Lemma valid_object_len : __len__ valid_object = Ok 2.
Proof. reflexivity. Qed.

Lemma odd_object_len : __len__ odd_object = Ok 3.
Proof. reflexivity. Qed.

Lemma second_picture :
  Image_open unpacked
    (os_path_join (root valid_object) (first_column csv_row2))
  = Ok (uniform 320 320).
Proof. vm_compute. reflexivity. Qed.







Lemma flipped_object_built :
  built_from decimal_float flipped_object
    [csv_header; set_no_finding "1.0" csv_row1; set_no_finding "" csv_row2].
Proof. exists flipped_split. split; vm_compute; reflexivity. Qed.

(** Witness of C10: position 1 of the validation split, and the same split
    with its "No Finding" cells changed. *)
Lemma getitem_atelectasis_twice_witness :
  built_from decimal_float valid_object [csv_header; csv_row1; csv_row2] /\
  __len__ valid_object = Ok 2 /\ 0 <= 1 < 2 /\
  (exists img entries x,
     __getitem__ nearest_resample valid_object unpacked 1 = Ok (1, img, Array1 entries) /\
     entries !! 0%nat = Some x /\ entries !! 8%nat = Some x) /\
  labels flipped_object <> labels valid_object /\
  __getitem__ nearest_resample flipped_object unpacked 1
  = __getitem__ nearest_resample valid_object unpacked 1.
Proof.
  assert (Hp : 0 <= 1 < 2) by lia.
  destruct (getitem_atelectasis_twice decimal_float nearest_resample valid_object _
              unpacked 2 1 valid_object_built valid_object_len Hp)
    as (Htwice & (vals & Hv & Hret) & Hsame).
  injection Hv as <-.
  assert (H1 : 1 <= 320) by lia.
  assert (Hr : Z.max 320 320 <= 224 * Z.min 320 320) by lia.
  destruct (TRANSFORMS_ok nearest_resample (uniform 320 320) 320 320 eq_refl H1 H1 Hr)
    as (t & _ & _ & Ht & _).
  destruct (Hret _ _ second_picture Ht) as (img & label & Hg).
  destruct (Htwice _ _ _ Hg) as (entries & x & -> & H0 & H8).
  split; [exact valid_object_built |]. split; [reflexivity |]. split; [exact Hp |].
  split; [exists img, entries, x; split; [exact Hg | split; [exact H0 | exact H8]] |].
  split; [discriminate |].
  apply (Hsame flipped_object _ flipped_object_built eq_refl).
  assert (data_lines 1 [csv_header; csv_row1; csv_row2] = [csv_row1; csv_row2]) as ->
    by (vm_compute; reflexivity).
  assert (data_lines 1 [csv_header; set_no_finding "1.0" csv_row1;
                        set_no_finding "" csv_row2]
          = [set_no_finding "1.0" csv_row1; set_no_finding "" csv_row2]) as ->
    by (vm_compute; reflexivity).
  repeat apply List.Forall2_cons; try apply List.Forall2_nil;
    intros j Hj; unfold set_no_finding; symmetry; by apply list_lookup_insert_ne.
Defined.



(** Witness of C8: the single-row training split and the two-row
    validation split of the sample. *)
Lemma len_and_path_order_witness :
  built_from decimal_float train_object [csv_header; csv_row1] /\
  sample_train = Ok train_object /\
  __len__ train_object = Raise IndexError /\
  getitem (fnames train_object) 0 = Raise IndexError /\
  __len__ valid_object = Ok 2 /\
  getitem (fnames valid_object) 1 = Ok (Array0 (first_column csv_row2)).
Proof.
  destruct (len_and_path_order decimal_float train_object _ train_object_built)
    as [_ Hone].
  destruct (len_and_path_order decimal_float valid_object _ valid_object_built)
    as [Hmany _].
  assert (H1 : length (data_lines 1 [csv_header; csv_row1]) = 1%nat)
    by (vm_compute; reflexivity).
  assert (H2 : length (data_lines 1 [csv_header; csv_row1; csv_row2]) <> 1%nat)
    by (vm_compute; lia).
  destruct (Hone H1) as [Hlen Hget]. destruct (Hmany H2) as [Hlen2 Hget2].
  split; [exact train_object_built |]. split; [vm_compute; reflexivity |].
  split; [exact Hlen |]. split; [exact (Hget 0) |]. split; [exact Hlen2 |].
  exact (Hget2 1%nat csv_row2 eq_refl).
Defined.

Lemma pair_of_first {A B} (x : A * B) (a : A) : x.1 = a -> x = (a, x.2).
Proof. destruct x. simpl. by intros ->. Qed.

(** Witness of C9: a base directory with the archive only, resolved twice,
    an empty base directory, and an unpacking that leaves nothing. *)
Lemma find_data_resolves_witness :
  makedirs sample_root archive_only = (Ok tt, (makedirs sample_root archive_only).2) /\
  os_path_exists archive_only (extracted_dir sample_root) = false /\
  os_path_exists archive_only (archive_path sample_root) = true /\
  find_data (unpack sample_files) sample_root archive_only = (Ok sample_dir, unpacked) /\
  (find_data (unpack sample_files) sample_root unpacked).1 = Ok sample_dir /\
  (find_data (unpack sample_files) sample_root ∅).1 = Raise RuntimeError /\
  (find_data unpack_nothing sample_root archive_only).1 = Raise FileNotFoundError.
Proof.
  assert (Hmk : makedirs sample_root archive_only
                = (Ok tt, (makedirs sample_root archive_only).2))
    by (apply pair_of_first; vm_compute; reflexivity).
  assert (Hmk2 : makedirs sample_root unpacked
                 = (Ok tt, (makedirs sample_root unpacked).2))
    by (apply pair_of_first; vm_compute; reflexivity).
  assert (Hmk0 : makedirs sample_root ∅ = (Ok tt, (makedirs sample_root ∅).2))
    by (apply pair_of_first; vm_compute; reflexivity).
  assert (Hd : os_path_exists archive_only (extracted_dir sample_root) = false)
    by (vm_compute; reflexivity).
  assert (Hz : os_path_exists archive_only (archive_path sample_root) = true)
    by (vm_compute; reflexivity).
  assert (Hd2 : os_path_exists unpacked (extracted_dir sample_root) = true)
    by (vm_compute; reflexivity).
  assert (Hd0 : os_path_exists ∅ (extracted_dir sample_root) = false)
    by (vm_compute; reflexivity).
  assert (Hz0 : os_path_exists ∅ (archive_path sample_root) = false)
    by (vm_compute; reflexivity).
  destruct (find_data_resolves (unpack sample_files) sample_root archive_only _ Hmk)
    as (_ & _ & _ & Hzip & _).
  destruct (Hzip Hd Hz unpacked eq_refl) as [Hfirst Hsecond].
  rewrite Hd2 in Hfirst.
  destruct (find_data_resolves (unpack sample_files) sample_root ∅ _ Hmk0)
    as (Hnone & _).
  destruct (find_data_resolves unpack_nothing sample_root archive_only _ Hmk)
    as (_ & _ & _ & Hgone & _).
  destruct (Hgone Hd Hz _ eq_refl) as [Hlost _].
  split; [exact Hmk |]. split; [exact Hd |]. split; [exact Hz |].
  split; [exact Hfirst |].
  split; [by rewrite (Hsecond _ Hd2 Hmk2) |].
  split; [by rewrite (Hnone Hd0 Hz0) |].
  rewrite Hlost. vm_compute. reflexivity.
Defined.

(** * Further properties of the class *)

(** ** Directory creation *)

Lemma mkdirs_preserves (ps : list string) (fs : filesystem) (p : string) (x : node) :
  fs !! p = Some x -> (mkdirs ps fs).2 !! p = Some x.
Proof.
  revert fs. induction ps as [| q ps IH]; intros fs Hp; simpl; [done |].
  destruct (fs !! q) as [[| c] |] eqn:Hq; simpl.
  - by apply IH.
  - done.
  - apply IH. rewrite lookup_insert_ne; [done |]. intros ->. congruence.
Qed.

Lemma mkdirs_new (ps : list string) (fs : filesystem) (p : string) (x : node) :
  (mkdirs ps fs).2 !! p = Some x ->
  fs !! p = Some x \/ (fs !! p = None /\ x = Dir /\ p ∈ ps).
Proof.
  revert fs. induction ps as [| q ps IH]; intros fs Hp; simpl in Hp; [by left |].
  destruct (fs !! q) as [[| c] |] eqn:Hq; simpl in Hp.
  - destruct (IH _ Hp) as [H | (H & -> & Hin)]; [by left |].
    right. split; [done |]. split; [done |]. by apply list_elem_of_further.
  - by left.
  - destruct (IH _ Hp) as [H | (H & -> & Hin)].
    + destruct (decide (q = p)) as [-> | Hne].
      * rewrite lookup_insert_eq in H. injection H as <-.
        right. split; [done |]. split; [done |]. apply list_elem_of_here.
      * rewrite lookup_insert_ne in H by done. by left.
    + destruct (decide (q = p)) as [-> | Hne].
      * by rewrite lookup_insert_eq in H.
      * rewrite lookup_insert_ne in H by done.
        right. split; [done |]. split; [done |]. by apply list_elem_of_further.
Qed.

Lemma mkdirs_result (ps : list string) (fs : filesystem) :
  (mkdirs ps fs).1 = Ok tt \/ (mkdirs ps fs).1 = Raise OSError.
Proof.
  revert fs. induction ps as [| q ps IH]; intros fs; simpl; [by left |].
  destruct (fs !! q) as [[| c] |]; simpl; [apply IH | by right | apply IH].
Qed.

Lemma mkdirs_blocked (ps : list string) (fs : filesystem) (p : string) (c : content) :
  p ∈ ps -> fs !! p = Some (File c) -> (mkdirs ps fs).1 = Raise OSError.
Proof.
  revert fs. induction ps as [| q ps IH]; intros fs Hin Hp; simpl.
  - by apply elem_of_nil in Hin.
  - apply elem_of_cons in Hin as [<- | Hin].
    + by rewrite Hp.
    + destruct (fs !! q) as [[| c'] |] eqn:Hq; simpl.
      * by apply IH.
      * done.
      * apply IH; [done |]. rewrite lookup_insert_ne; [done |]. intros ->. congruence.
Qed.

Lemma mkdirs_made (ps : list string) (fs fs1 : filesystem) (p : string) :
  mkdirs ps fs = (Ok tt, fs1) -> p ∈ ps -> fs1 !! p = Some Dir.
Proof.
  revert fs. induction ps as [| q ps IH]; intros fs Hmk Hin.
  - by apply elem_of_nil in Hin.
  - simpl in Hmk. apply elem_of_cons in Hin as [-> | Hin].
    + destruct (fs !! q) as [[| c] |] eqn:Hq; [| discriminate |].
      * replace fs1 with (mkdirs ps fs).2 by (by rewrite Hmk).
        by apply mkdirs_preserves.
      * replace fs1 with (mkdirs ps (<[q:=Dir]> fs)).2 by (by rewrite Hmk).
        apply mkdirs_preserves. apply lookup_insert_eq.
    + destruct (fs !! q) as [[| c] |] eqn:Hq; [| discriminate |]; by eapply IH.
Qed.

Lemma mkdirs_all_dir (ps : list string) (fs : filesystem) :
  (forall p, p ∈ ps -> fs !! p = Some Dir) -> mkdirs ps fs = (Ok tt, fs).
Proof.
  induction ps as [| q ps IH]; intros Hall; simpl; [done |].
  rewrite (Hall q) by apply list_elem_of_here.
  apply IH. intros p Hp. apply Hall. by apply list_elem_of_further.
Qed.

Lemma root_chain_length (root p : string) :
  p ∈ root_chain root -> (String.length p <= String.length root)%nat.
Proof.
  unfold root_chain. intros Hin. apply elem_of_app in Hin as [Hin | Hin].
  - apply parents_from_length in Hin. simpl in Hin. lia.
  - apply list_elem_of_singleton in Hin. by subst.
Qed.

Lemma makedirs_pair (root : string) (fs : filesystem) :
  makedirs root fs = (Ok tt, (makedirs root fs).2) \/
  makedirs root fs = (Raise OSError, (makedirs root fs).2).
Proof.
  unfold makedirs. destruct (mkdirs_result (parents_from "" root ++ [root]) fs) as [H | H];
    [left | right]; by apply pair_of_first.
Qed.

(** [__init__] step by step. *)
Lemma init_unfold (py_float : string -> option Q) (extract_archive : string -> io unit)
    (base_root : string) (download train : bool) (fs : filesystem) :
  __init__ py_float extract_archive base_root download train fs =
  match find_data extract_archive (dataset_root base_root) fs with
  | (Ok index_location, fs1) =>
      match build_index py_float index_location (if train then "train" else "valid") fs1 with
      | Ok (fnames, labels) =>
          (Ok {| root := dataset_root base_root; index_location := index_location;
                 split := if train then "train" else "valid";
                 fnames := fnames; labels := labels |}, fs1)
      | Raise e => (Raise e, fs1)
      end
  | (Raise e, fs1) => (Raise e, fs1)
  end.
Proof.
  unfold __init__, mbind, io_bind, reading, dataset_root.
  destruct (find_data _ _ fs) as [[loc | e] fs1]; [| reflexivity].
  destruct (build_index _ _ _ fs1) as [[f l] | e]; reflexivity.
Qed.

Section MoreProperties.

Variable py_float : string -> option Q.
Variable resample : image -> Z * Z -> Z -> Z -> Z.
Variable extract_archive : string -> io unit.

(** ** The layout resolver, continued *)

Lemma find_data_not_made (root : string) (fs fs1 : filesystem) (e : exn) :
  makedirs root fs = (Raise e, fs1) ->
  find_data extract_archive root fs = (Raise e, fs1).
Proof. intros Hmk. unfold find_data, mbind, io_bind. by rewrite Hmk. Qed.

Lemma extracted_dir_not_archive (root : string) : extracted_dir root <> archive_path root.
Proof.
  unfold extracted_dir, archive_path, os_path_join. simpl.
  destruct (_ || _); intros Heq; apply (f_equal String.length) in Heq;
    rewrite !length_append in Heq; simpl in Heq; lia.
Qed.

(** How the resolver came to return a path. *)
Lemma find_data_ok_inv (root : string) (fs fs' : filesystem) (p : string) :
  find_data extract_archive root fs = (Ok p, fs') ->
  makedirs root fs = (Ok tt, (makedirs root fs).2) /\
  ((os_path_exists fs (extracted_dir root) = true /\
    p = extracted_dir root /\ fs' = (makedirs root fs).2) \/
   (os_path_exists fs (extracted_dir root) = false /\
    os_path_exists fs (archive_path root) = true /\
    extract_archive (archive_path root) (makedirs root fs).2 = (Ok tt, fs') /\
    ((os_path_exists fs' (extracted_dir root) = true /\ p = extracted_dir root) \/
     (os_path_exists fs' (extracted_dir root) = false /\
      os_path_exists fs' (archive_path root) = true /\ p = archive_path root)))).
Proof.
  intros Hfind.
  destruct (makedirs_pair root fs) as [Hmk | Hmk].
  - split; [exact Hmk |].
    rewrite (find_data_made _ _ _ _ Hmk) in Hfind.
    pose proof (makedirs_exists _ _ _ _ _ Hmk (extracted_dir_longer root)) as Hd1.
    destruct (os_path_exists fs (extracted_dir root)) eqn:Hd; simpl in Hfind.
    + rewrite Hd1 in Hfind. injection Hfind as <- <-. by left.
    + destruct (os_path_exists fs (archive_path root)) eqn:Hz; simpl in Hfind;
        [| discriminate].
      destruct (extract_archive (archive_path root) (makedirs root fs).2)
        as [[[] | e] fs2]; [| discriminate].
      destruct (os_path_exists fs2 (extracted_dir root)) eqn:Hd2.
      * injection Hfind as <- <-. right. repeat split; try done. by left.
      * destruct (os_path_exists fs2 (archive_path root)) eqn:Hz2; [| discriminate].
        injection Hfind as <- <-. right. repeat split; try done. by right.
  - rewrite (find_data_not_made _ _ _ _ Hmk) in Hfind. discriminate.
Qed.

(** X1. Whenever the resolver returns a path, that path is the extracted
    directory or the archive path, it exists in the file system the
    resolver leaves, and the archive path is returned only if the
    extracted directory does not exist there. *)
Theorem find_data_returns_existing (root : string) (fs fs' : filesystem) (p : string) :
  find_data extract_archive root fs = (Ok p, fs') ->
  (p = extracted_dir root \/ p = archive_path root) /\
  os_path_exists fs' p = true /\
  (p = archive_path root -> os_path_exists fs' (extracted_dir root) = false).
Proof.
  intros Hfind.
  destruct (find_data_ok_inv _ _ _ _ Hfind) as [Hmk [(Hd & -> & ->) | (Hd & Hz & Hex & Hafter)]].
  - split; [by left |]. split.
    + by rewrite (makedirs_exists _ _ _ _ _ Hmk (extracted_dir_longer root)).
    + intros Heq. by apply extracted_dir_not_archive in Heq.
  - destruct Hafter as [[Hd2 ->] | (Hd2 & Hz2 & ->)].
    + split; [by left |]. split; [done |].
      intros Heq. by apply extracted_dir_not_archive in Heq.
    + split; [by right |]. done.
Qed.

(** X2. When the extracted directory already exists the resolver never
    unpacks and never removes or replaces anything: it returns the
    directory (or the OSError of the directory creation), every node of
    the file system stays as it was, and the only new nodes are directories
    on the way down to the dataset root. *)
Theorem find_data_extracted_frame (root : string) (fs fs' : filesystem)
    (r : result string) :
  os_path_exists fs (extracted_dir root) = true ->
  find_data extract_archive root fs = (r, fs') ->
  (r = Ok (extracted_dir root) \/ r = Raise OSError) /\
  (forall p x, fs !! p = Some x -> fs' !! p = Some x) /\
  (forall p x, fs' !! p = Some x ->
     fs !! p = Some x \/ (fs !! p = None /\ x = Dir /\ p ∈ root_chain root)).
Proof.
  intros Hd Hfind.
  assert (Hfs : fs' = (makedirs root fs).2 /\
                (r = Ok (extracted_dir root) \/ r = Raise OSError)).
  { destruct (makedirs_pair root fs) as [Hmk | Hmk].
    - rewrite (find_data_made _ _ _ _ Hmk), Hd in Hfind. simpl in Hfind.
      rewrite (makedirs_exists _ _ _ _ _ Hmk (extracted_dir_longer root)), Hd in Hfind.
      injection Hfind as <- <-. split; [done | by left].
    - rewrite (find_data_not_made _ _ _ _ Hmk) in Hfind.
      injection Hfind as <- <-. split; [done | by right]. }
  destruct Hfs as [-> Hr]. split; [exact Hr |]. split.
  - intros p x. apply mkdirs_preserves.
  - intros p x. apply mkdirs_new.
Qed.

(** X3. A regular file at the dataset root or at one of the directories
    above it makes the resolver fail with an OSError, whatever data is
    present; nothing that exists is removed or replaced on the way. *)
Theorem find_data_blocked (root : string) (fs : filesystem) (p : string) (c : content) :
  p ∈ root_chain root -> fs !! p = Some (File c) ->
  (find_data extract_archive root fs).1 = Raise OSError /\
  (forall q x, fs !! q = Some x ->
     (find_data extract_archive root fs).2 !! q = Some x).
Proof.
  intros Hin Hp.
  assert (Hmk : makedirs root fs = (Raise OSError, (makedirs root fs).2)).
  { apply pair_of_first. by apply (mkdirs_blocked _ _ p c). }
  rewrite (find_data_not_made _ _ _ _ Hmk). split; [done |].
  intros q x. apply mkdirs_preserves.
Qed.

(** ** Construction *)


Lemma init_again (other_extract : string -> io unit) (base_root : string)
    (download train : bool) (fs1 : filesystem) (f : ndarray string) (l : ndarray Q) :
  (forall p, p ∈ root_chain (dataset_root base_root) -> fs1 !! p = Some Dir) ->
  os_path_exists fs1 (extracted_dir (dataset_root base_root)) = true ->
  build_index py_float (extracted_dir (dataset_root base_root))
    (if train then "train" else "valid") fs1 = Ok (f, l) ->
  __init__ py_float other_extract base_root download train fs1
  = (Ok {| root := dataset_root base_root;
           index_location := extracted_dir (dataset_root base_root);
           split := if train then "train" else "valid";
           fnames := f; labels := l |}, fs1).
Proof.
  intros Hchain Hd Hb.
  assert (Hmk : makedirs (dataset_root base_root) fs1 = (Ok tt, fs1))
    by (by apply mkdirs_all_dir).
  rewrite init_unfold, (find_data_made _ _ _ _ Hmk), Hd. simpl.
  by rewrite Hd, Hb.
Qed.

(** X5. A second construction on the file system that a successful
    construction has left returns the same object and leaves the file
    system as it is, without unpacking, whatever the unpacking would do and
    whatever the download flag: always when the extracted directory was
    there before the first construction, and after an unpacking provided
    the directories down to the dataset root are still directories. *)
Theorem init_twice (other_extract : string -> io unit) (base_root : string)
    (download download' train : bool) (fs fs' : filesystem) (self : CheXpert_Full) :
  __init__ py_float extract_archive base_root download train fs = (Ok self, fs') ->
  (os_path_exists fs (extracted_dir (dataset_root base_root)) = true ->
   __init__ py_float other_extract base_root download' train fs' = (Ok self, fs')) /\
  (index_location self = extracted_dir (dataset_root base_root) ->
   (forall p, p ∈ root_chain (dataset_root base_root) -> fs' !! p = Some Dir) ->
   __init__ py_float other_extract base_root download' train fs' = (Ok self, fs')).
Proof.
  intros Hinit. rewrite init_unfold in Hinit.
  destruct (find_data extract_archive (dataset_root base_root) fs)
    as [[loc | e] fs1] eqn:Hfind; [| discriminate].
  destruct (build_index py_float loc (if train then "train" else "valid") fs1)
    as [[f l] | e] eqn:Hb; [| discriminate].
  injection Hinit as <- <-.
  destruct (find_data_ok_inv _ _ _ _ Hfind) as [Hmk Hcases].
  split.
  - intros Hd.
    destruct Hcases as [(_ & -> & ->) | (Hd' & _)]; [| congruence].
    apply init_again; [| | exact Hb].
    + intros p Hp. by apply (mkdirs_made _ _ _ _ Hmk).
    + by rewrite (makedirs_exists _ _ _ _ _ Hmk (extracted_dir_longer _)).
  - cbn [index_location]. intros -> Hchain.
    apply init_again; [exact Hchain | | exact Hb].
    destruct Hcases as [(Hd & _ & ->) | (_ & _ & _ & [[Hd2 _] | (_ & _ & Heq)])].
    + by rewrite (makedirs_exists _ _ _ _ _ Hmk (extracted_dir_longer _)).
    + exact Hd2.
    + by apply extracted_dir_not_archive in Heq.
Qed.

Lemma split_csv_longer (loc : string) (train : bool) :
  (String.length loc
   < String.length (os_path_join loc ((if train then "train" else "valid") +:+ ".csv")))%nat.
Proof. apply os_path_join_longer; destruct train; simpl; (reflexivity || lia). Qed.

(** X6. A construction that fails has still made the dataset directory:
    on a base directory with neither form of the data the constructor
    raises the RuntimeError and leaves the dataset root as a directory, and
    on extracted data without the manifest of the requested split it
    raises the reader's OSError; in both cases the file system is left as
    the directory creation left it. *)
Theorem init_failures (base_root : string) (download train : bool)
    (fs fs1 : filesystem) :
  makedirs (dataset_root base_root) fs = (Ok tt, fs1) ->
  fs1 !! dataset_root base_root = Some Dir /\
  (os_path_exists fs (extracted_dir (dataset_root base_root)) = false ->
   os_path_exists fs (archive_path (dataset_root base_root)) = false ->
   __init__ py_float extract_archive base_root download train fs
   = (Raise RuntimeError, fs1)) /\
  (os_path_exists fs (extracted_dir (dataset_root base_root)) = true ->
   fs !! os_path_join (extracted_dir (dataset_root base_root))
           ((if train then "train" else "valid") +:+ ".csv") = None ->
   __init__ py_float extract_archive base_root download train fs
   = (Raise OSError, fs1)).
Proof.
  intros Hmk. split; [| split].
  - apply (mkdirs_made _ _ _ _ Hmk). unfold root_chain.
    apply elem_of_app. right. apply list_elem_of_here.
  - intros Hd Hz. by rewrite init_unfold, (find_data_made _ _ _ _ Hmk), Hd, Hz.
  - intros Hd Hcsv.
    rewrite init_unfold, (find_data_made _ _ _ _ Hmk), Hd. simpl.
    rewrite (makedirs_exists _ _ _ _ _ Hmk (extracted_dir_longer _)), Hd.
    rewrite build_index_absent; [done |].
    replace fs1 with (makedirs (dataset_root base_root) fs).2 by (by rewrite Hmk).
    rewrite makedirs_frame; [done |].
    pose proof (extracted_dir_longer (dataset_root base_root)).
    pose proof (split_csv_longer (extracted_dir (dataset_root base_root)) train). lia.
Qed.

(** ** Index construction, continued *)







(** Where a returned sample comes from. *)
Lemma getitem_ok_inv (self : CheXpert_Full) (ls : list (list string)) (fs : filesystem)
    (p i : Z) (img : tensor) (label : ndarray Z) :
  built_from py_float self ls ->
  __getitem__ resample self fs p = Ok (i, img, label) ->
  exists n k vals im t,
    __len__ self = Ok n /\ axis_index (Z.to_nat n) p = Ok k /\
    data_lines 1 ls !! k = Some vals /\
    Image_open fs (os_path_join (root self) (first_column vals)) = Ok im /\
    TRANSFORMS resample im = Ok t /\
    i = p /\ img = padding_step t /\
    label = Array1 (canonical_labels (stored_label_row py_float vals)).
Proof.
  intros Hb Hget.
  pose proof (built_len _ _ _ Hb) as Hlen.
  destruct (built_from_inv _ _ _ Hb) as (Hw & Hf & Hl).
  destruct (__len__ self) as [n | e] eqn:Hn.
  - destruct (built_with_len _ _ _ _ Hb Hn) as (Hn' & _ & Hf' & _).
    destruct (axis_index (Z.to_nat n) p) as [k | e] eqn:Hk.
    + destruct (axis_index_inv _ _ _ Hk) as (Hlt & _ & _).
      destruct (lookup_lt_is_Some_2 (data_lines 1 ls) k ltac:(lia)) as [vals Hv].
      rewrite (getitem_built _ _ _ _ fs _ _ _ _ Hb Hn Hk Hv) in Hget.
      destruct (Image_open _ _) as [im | e] eqn:Him; cbn [mbind result_bind] in Hget;
        [| discriminate].
      destruct (TRANSFORMS resample im) as [t | e] eqn:Ht;
        cbn [mbind result_bind] in Hget; [| discriminate].
      injection Hget as <- <- <-.
      by exists n, k, vals, im, t.
    + exfalso. unfold __getitem__ in Hget. rewrite Hf' in Hget.
      unfold getitem in Hget. rewrite length_map in Hget.
      rewrite Hn', Nat2Z.id in Hk. rewrite Hk in Hget. discriminate.
  - exfalso. destruct (data_lines 1 ls) as [| v [| w D]]; try discriminate Hlen.
    unfold __getitem__ in Hget. rewrite Hf in Hget. discriminate.
Qed.



(** ** The transforms, continued *)

Lemma resized_output_size_sides (h w : Z) :
  1 <= h -> 1 <= w ->
  exists nh nw,
    compute_resized_output_size (h, w) 223 (Some 224) = Ok (nh, nw) /\
    Z.min nh nw <= 223 /\
    (Z.max nh nw = 223 \/ Z.max nh nw = 224) /\
    (w <= h -> nw <= nh) /\ (h <= w -> nh <= nw) /\
    (w = h -> nh = 223 /\ nw = 223).
Proof.
  intros Hh Hw. unfold compute_resized_output_size.
  destruct (Z.leb_spec w h) as [Hle | Hlt].
  - assert ((w =? 0) = false) as -> by (apply Z.eqb_neq; lia).
    cbv zeta. rewrite Z.quot_div_nonneg by lia.
    assert (Hnl : 223 <= 223 * h / w) by (apply Z.div_le_lower_bound; nia).
    assert (Hsq : w = h -> 223 * h / w = 223) by (intros ->; apply Z.div_mul; lia).
    change (224 <=? 223) with false. cbv iota.
    destruct (Z.gtb_spec (223 * h / w) 224) as [Hbig | Hsmall]; cbn [mbind result_bind].
    + rewrite Z.quot_div_nonneg by lia.
      assert (224 * 223 / (223 * h / w) < 224) by (apply Z.div_lt_upper_bound; lia).
      do 2 eexists. split; [reflexivity |].
      split; [lia |]. split; [lia |]. split; [lia |]. split; [lia |].
      intros Heq. specialize (Hsq Heq). lia.
    + do 2 eexists. split; [reflexivity |].
      split; [lia |]. split; [lia |]. split; [lia |]. split; [intros; lia |].
      intros Heq. specialize (Hsq Heq). lia.
  - assert ((h =? 0) = false) as -> by (apply Z.eqb_neq; lia).
    cbv zeta. rewrite Z.quot_div_nonneg by lia.
    assert (Hnl : 223 <= 223 * w / h) by (apply Z.div_le_lower_bound; nia).
    change (224 <=? 223) with false. cbv iota.
    destruct (Z.gtb_spec (223 * w / h) 224) as [Hbig | Hsmall]; cbn [mbind result_bind].
    + rewrite Z.quot_div_nonneg by lia.
      assert (224 * 223 / (223 * w / h) < 224) by (apply Z.div_lt_upper_bound; lia).
      do 2 eexists. split; [reflexivity |].
      split; [lia |]. split; [lia |]. split; [lia |]. split; [lia |]. lia.
    + do 2 eexists. split; [reflexivity |].
      split; [lia |]. split; [lia |]. split; [lia |]. split; [lia |]. lia.
Qed.

(** X10. Whatever image the transforms accept, the resized tensor has one
    channel, sides of at least 1, a longer side of 223 or 224 and a shorter
    side of at most 223, and it is no wider than high if the picture was
    not; a square picture comes out 223 by 223, and a square tensor is
    always 223 by 223, so that the equal-sides branch of the padding always
    pads by exactly one pixel at the top and at the left. *)
Theorem TRANSFORMS_sides (im : image) (w h : Z) (t : tensor) :
  im_size im = (w, h) -> 0 <= w -> 0 <= h ->
  TRANSFORMS resample im = Ok t ->
  1 <= w /\ 1 <= h /\
  exists nh nw,
    t_shape t = (1, nh, nw) /\
    1 <= Z.min nh nw <= 223 /\
    (Z.max nh nw = 223 \/ Z.max nh nw = 224) /\
    (w <= h -> nw <= nh) /\ (h <= w -> nh <= nw) /\
    (w = h -> nh = 223 /\ nw = 223) /\
    (nh = nw -> nh = 223 /\ pad_amounts nh nw = (1, 1, 0, 0)).
Proof.
  intros Hs Hw Hh Ht.
  assert (Hpos : 1 <= w /\ 1 <= h).
  { destruct (Z.eq_dec w 0) as [-> | Hw0]; [| destruct (Z.eq_dec h 0) as [-> | Hh0]];
      [exfalso | exfalso | lia].
    - unfold TRANSFORMS, Resize in Ht. rewrite Hs in Ht.
      unfold compute_resized_output_size in Ht.
      assert ((0 <=? h) = true) as Hb by (apply Z.leb_le; lia).
      rewrite Hb in Ht. discriminate.
    - unfold TRANSFORMS, Resize in Ht. rewrite Hs in Ht.
      unfold compute_resized_output_size in Ht.
      assert ((w <=? 0) = false) as Hb by (apply Z.leb_gt; lia).
      rewrite Hb in Ht. discriminate. }
  destruct Hpos as [Hw1 Hh1]. split; [exact Hw1 |]. split; [exact Hh1 |].
  destruct (resized_output_size_sides h w Hh1 Hw1)
    as (nh & nw & Hc & Hmin & Hmax & Hport & Hland & Hsq).
  unfold TRANSFORMS, Resize in Ht. rewrite Hs in Ht.
  change (INPUT_SIZE.1 - 1) with 223 in Ht. change (INPUT_SIZE.1) with 224 in Ht.
  rewrite Hc in Ht. cbn [mbind result_bind] in Ht.
  destruct (Z.ltb_spec nw 1), (Z.ltb_spec nh 1);
    cbn [orb mbind result_bind] in Ht; try discriminate.
  injection Ht as <-. exists nh, nw. split; [reflexivity |].
  split; [lia |]. split; [exact Hmax |]. split; [exact Hport |].
  split; [exact Hland |]. split; [exact Hsq |].
  intros Heq. assert (nh = 223) as -> by lia. subst nw. split; reflexivity.
Qed.

(** X11. The padding never crops and never alters what it pads: for a
    tensor with non-negative sides that is not a square larger than 224,
    all four pads are non-negative, every element of the tensor is found
    again at the offset (top, left), and every other element of the padded
    tensor is 0. *)
Theorem padding_step_keeps_content (t : tensor) (c h w : Z)
    (pad_left pad_top pad_right pad_bottom : Z) :
  t_shape t = (c, h, w) -> 0 <= h -> 0 <= w -> (h = w -> h <= 224) ->
  pad_amounts h w = (pad_left, pad_top, pad_right, pad_bottom) ->
  0 <= pad_left /\ 0 <= pad_top /\ 0 <= pad_right /\ 0 <= pad_bottom /\
  t_shape (padding_step t) = (c, pad_top + h + pad_bottom, pad_left + w + pad_right) /\
  (forall k i j, 0 <= i < h -> 0 <= j < w ->
     t_data (padding_step t) k (pad_top + i) (pad_left + j) = t_data t k i j) /\
  (forall k i j,
     ~ (pad_top <= i < pad_top + h /\ pad_left <= j < pad_left + w) ->
     t_data (padding_step t) k i j = 0%Q).
Proof.
  intros Hs Hh Hw Hsq Hp.
  assert (Hpads : 0 <= pad_left /\ 0 <= pad_top /\ 0 <= pad_right /\ 0 <= pad_bottom).
  { destruct (Z.lt_trichotomy h w) as [Hlt | [Heq | Hgt]].
    - rewrite (pad_amounts_wider _ _ Hlt) in Hp. injection Hp as <- <- <- <-.
      repeat split; try lia; Z.div_mod_to_equations; lia.
    - subst w. rewrite pad_amounts_square in Hp. injection Hp as <- <- <- <-.
      specialize (Hsq eq_refl). lia.
    - rewrite (pad_amounts_taller h w) in Hp by lia. injection Hp as <- <- <- <-.
      repeat split; try lia; Z.div_mod_to_equations; lia. }
  destruct Hpads as (Hl & Ht & Hr & Hb).
  split; [exact Hl |]. split; [exact Ht |]. split; [exact Hr |]. split; [exact Hb |].
  rewrite (padding_step_unfold _ _ _ _ Hs), Hp.
  split; [apply (Pad_shape _ _ _ _ _ _ _ _ Hs) |]. split.
  - intros k i j Hi Hj. rewrite (Pad_data _ _ _ _ _ _ _ _ _ _ _ Hs).
    assert ((pad_top <=? pad_top + i) = true) as -> by (apply Z.leb_le; lia).
    assert ((pad_top + i <? pad_top + h) = true) as -> by (apply Z.ltb_lt; lia).
    assert ((pad_left <=? pad_left + j) = true) as -> by (apply Z.leb_le; lia).
    assert ((pad_left + j <? pad_left + w) = true) as -> by (apply Z.ltb_lt; lia).
    simpl. f_equal; lia.
  - intros k i j Hout. rewrite (Pad_data _ _ _ _ _ _ _ _ _ _ _ Hs).
    destruct (Z.leb_spec pad_top i), (Z.ltb_spec i (pad_top + h)),
      (Z.leb_spec pad_left j), (Z.ltb_spec j (pad_left + w)); simpl; try reflexivity.
    exfalso. apply Hout. lia.
Qed.

(** ** Materialisation, continued *)

(** X12. The sample at a valid position is a function of the one file at
    the row's path under the dataset root: getItem gives the same outcome
    on any two file systems that agree on that path.  A missing file is a
    FileNotFoundError, a directory an OSError and a file that is no
    picture an UnidentifiedImageError; no sample is skipped or replaced. *)
Theorem getitem_image_file (self : CheXpert_Full) (ls : list (list string))
    (fs : filesystem) (n p : Z) (vals : list string) :
  built_from py_float self ls -> __len__ self = Ok n -> 0 <= p < n ->
  data_lines 1 ls !! Z.to_nat p = Some vals ->
  (fs !! os_path_join (root self) (first_column vals) = None ->
   __getitem__ resample self fs p = Raise FileNotFoundError) /\
  (fs !! os_path_join (root self) (first_column vals) = Some Dir ->
   __getitem__ resample self fs p = Raise OSError) /\
  (forall c,
     fs !! os_path_join (root self) (first_column vals) = Some (File c) ->
     (forall im, c <> Picture im) ->
     __getitem__ resample self fs p = Raise UnidentifiedImageError) /\
  (forall fs',
     fs' !! os_path_join (root self) (first_column vals)
     = fs !! os_path_join (root self) (first_column vals) ->
     __getitem__ resample self fs' p = __getitem__ resample self fs p).
Proof.
  intros Hb Hn Hp Hv.
  assert (Hk : axis_index (Z.to_nat n) p = Ok (Z.to_nat p))
    by (apply axis_index_nonneg; lia).
  assert (Hget : forall gs,
             __getitem__ resample self gs p
             = (im ← Image_open gs (os_path_join (root self) (first_column vals));
                t ← TRANSFORMS resample im;
                Ok (p, padding_step t,
                    Array1 (canonical_labels (stored_label_row py_float vals)))))
    by (intros gs; exact (getitem_built _ _ _ ls gs n p _ vals Hb Hn Hk Hv)).
  split; [| split; [| split]].
  - intros Hnone. rewrite Hget. unfold Image_open. by rewrite Hnone.
  - intros Hdir. rewrite Hget. unfold Image_open. by rewrite Hdir.
  - intros c Hc Hno. rewrite Hget. unfold Image_open. rewrite Hc.
    destruct c as [l | im |]; [done | by destruct (Hno im) | done].
  - intros fs' Heq. rewrite !Hget. unfold Image_open. by rewrite Heq.
Qed.

(** X13. What the static methods announce is what getItem delivers: for
    an object with a built index on a file system whose pictures have
    non-negative sides, every returned sample has an image tensor of
    in_channels by input_size and a label tensor with num_classes entries,
    num_classes being the length of the index vector of the class; the
    patch size divides the input size. *)
Theorem spec_agrees_with_samples (self : CheXpert_Full) (ls : list (list string))
    (fs : filesystem) (p i : Z) (img : tensor) (label : ndarray Z) :
  built_from py_float self ls ->
  (forall path im, fs !! path = Some (File (Picture im)) ->
     0 <= (im_size im).1 /\ 0 <= (im_size im).2) ->
  __getitem__ resample self fs p = Ok (i, img, label) ->
  exists s,
    spec = [s] /\
    t_shape img = (in_channels s, (input_size s).1, (input_size s).2) /\
    Z.of_nat (length (ndarray_values label)) = num_classes /\
    num_classes = Z.of_nat (length CHEXPERT_LABELS_IDX) /\
    (input_size s).1 mod (patch_size s).1 = 0 /\
    (input_size s).2 mod (patch_size s).2 = 0.
Proof.
  intros Hb Hpics Hget.
  destruct (getitem_ok_inv _ _ _ _ _ _ _ Hb Hget)
    as (n & k & vals & im & t & _ & _ & _ & Him & Ht & _ & -> & ->).
  assert (Hsides : 0 <= (im_size im).1 /\ 0 <= (im_size im).2).
  { unfold Image_open in Him.
    destruct (fs !! os_path_join (root self) (first_column vals))
      as [[| [l | im' |]] |] eqn:Hf; try discriminate.
    injection Him as ->. by apply (Hpics _ _ Hf). }
  destruct (im_size im) as [w h] eqn:Hs. simpl in Hsides.
  destruct (TRANSFORMS_inv _ _ _ _ _ Hs (proj1 Hsides) (proj2 Hsides) Ht)
    as (nh & nw & Hts & Hsq).
  eexists. split; [reflexivity |].
  split; [exact (padding_step_shape _ _ _ _ Hts Hsq) |].
  cbn [ndarray_values]. rewrite canonical_labels_length.
  repeat split.
Qed.



(** X16. When the unpacking returns without creating the extracted
    directory and the archive is still there, the constructor does not stop
    at the resolver: it takes the archive path as index location, looks for
    the manifest below it and fails with the reader's OSError when nothing
    is there. *)
Theorem init_unpacked_nothing (base_root : string) (download train : bool)
    (fs fs1 fs2 : filesystem) :
  makedirs (dataset_root base_root) fs = (Ok tt, fs1) ->
  os_path_exists fs (extracted_dir (dataset_root base_root)) = false ->
  os_path_exists fs (archive_path (dataset_root base_root)) = true ->
  extract_archive (archive_path (dataset_root base_root)) fs1 = (Ok tt, fs2) ->
  os_path_exists fs2 (extracted_dir (dataset_root base_root)) = false ->
  os_path_exists fs2 (archive_path (dataset_root base_root)) = true ->
  find_data extract_archive (dataset_root base_root) fs
  = (Ok (archive_path (dataset_root base_root)), fs2) /\
  (fs2 !! os_path_join (archive_path (dataset_root base_root))
            ((if train then "train" else "valid") +:+ ".csv") = None ->
   __init__ py_float extract_archive base_root download train fs
   = (Raise OSError, fs2)).
Proof.
  intros Hmk Hd Hz Hex Hd2 Hz2.
  assert (Hfind : find_data extract_archive (dataset_root base_root) fs
                  = (Ok (archive_path (dataset_root base_root)), fs2)).
  { rewrite (find_data_made _ _ _ _ Hmk), Hd, Hz. simpl. by rewrite Hex, Hd2, Hz2. }
  split; [exact Hfind |].
  intros Hcsv. rewrite init_unfold, Hfind. by rewrite build_index_absent.
Qed.

End MoreProperties.

(** * The further properties on the sample data *)

Lemma sample_makedirs :
  makedirs sample_root archive_only = (Ok tt, (makedirs sample_root archive_only).2).
Proof. apply pair_of_first. vm_compute. reflexivity. Qed.

Lemma sample_unpack (from_path : string) :
  unpack sample_files from_path (makedirs sample_root archive_only).2 = (Ok tt, unpacked).
Proof. unfold unpacked, unpack. cbn [snd]. exact eq_refl. Qed.

Lemma sample_find_data :
  find_data (unpack sample_files) sample_root archive_only = (Ok sample_dir, unpacked).
Proof.
  rewrite (find_data_made _ _ _ _ sample_makedirs).
  assert (os_path_exists archive_only (extracted_dir sample_root) = false) as ->
    by (vm_compute; reflexivity).
  assert (os_path_exists archive_only (archive_path sample_root) = true) as ->
    by (vm_compute; reflexivity).
  cbn [negb orb]. cbv zeta.
  rewrite sample_unpack.
  assert (os_path_exists unpacked (extracted_dir sample_root) = true) as ->
    by (vm_compute; reflexivity).
  reflexivity.
Qed.

Lemma sample_init :
  __init__ decimal_float (unpack sample_files) sample_base false false archive_only
  = (Ok valid_object, unpacked).
Proof.
  rewrite init_unfold.
  change (dataset_root sample_base) with sample_root.
  rewrite sample_find_data.
  assert (build_index decimal_float sample_dir "valid" unpacked
          = Ok (fnames valid_object, labels valid_object)) as ->
    by (vm_compute; reflexivity).
  reflexivity.
Qed.

Lemma sample_root_chain (fs : filesystem) :
  fs !! "/data"%string = Some Dir -> fs !! "/data/chest_xray"%string = Some Dir ->
  fs !! sample_root = Some Dir ->
  forall p, p ∈ root_chain (dataset_root sample_base) -> fs !! p = Some Dir.
Proof.
  intros H1 H2 H3 p Hp.
  assert (root_chain (dataset_root sample_base)
          = ["/data"; "/data/chest_xray"; sample_root]%string) as Heq
    by (vm_compute; reflexivity).
  rewrite Heq in Hp.
  repeat (apply elem_of_cons in Hp as [-> | Hp]); try done.
  by apply elem_of_nil in Hp.
Qed.

(** Witness of X1. *)
Lemma find_data_returns_existing_witness :
  find_data (unpack sample_files) sample_root archive_only = (Ok sample_dir, unpacked) /\
  os_path_exists unpacked sample_dir = true.
Proof.
  destruct (find_data_returns_existing _ _ _ _ _ sample_find_data) as (_ & Hex & _).
  split; [exact sample_find_data | exact Hex].
Defined.

(** Witness of X2. *)
Lemma find_data_extracted_frame_witness :
  os_path_exists unpacked (extracted_dir sample_root) = true /\
  ((find_data unpack_nothing sample_root unpacked).1 = Ok (extracted_dir sample_root)
   \/ (find_data unpack_nothing sample_root unpacked).1 = Raise OSError) /\
  (find_data unpack_nothing sample_root unpacked).2 !! sample_zip = Some (File Archive).
Proof.
  assert (Hd : os_path_exists unpacked (extracted_dir sample_root) = true)
    by (vm_compute; reflexivity).
  destruct (find_data_extracted_frame unpack_nothing sample_root unpacked _ _ Hd
              (surjective_pairing _)) as (Hr & Hkeep & _).
  split; [exact Hd |]. split; [exact Hr |].
  apply Hkeep. vm_compute. reflexivity.
Defined.

(** Witness of X3. *)
Lemma find_data_blocked_witness :
  sample_root ∈ root_chain sample_root /\
  blocked !! sample_root = Some (File Archive) /\
  (find_data (unpack sample_files) sample_root blocked).1 = Raise OSError.
Proof.
  assert (Hin : sample_root ∈ root_chain sample_root).
  { unfold root_chain. apply elem_of_app. right. apply list_elem_of_here. }
  assert (Hf : blocked !! sample_root = Some (File Archive)) by (vm_compute; reflexivity).
  destruct (find_data_blocked (unpack sample_files) sample_root blocked _ _ Hin Hf)
    as [Hraise _].
  split; [exact Hin |]. split; [exact Hf | exact Hraise].
Defined.


(** Witness of X5. *)
Lemma init_twice_witness :
  __init__ decimal_float (unpack sample_files) sample_base false false archive_only
    = (Ok valid_object, unpacked) /\
  index_location valid_object = extracted_dir (dataset_root sample_base) /\
  __init__ decimal_float unpack_nothing sample_base true false unpacked
    = (Ok valid_object, unpacked).
Proof.
  destruct (init_twice decimal_float (unpack sample_files) unpack_nothing sample_base
              false true false archive_only unpacked valid_object sample_init)
    as [_ Hagain].
  split; [exact sample_init |]. split; [reflexivity |].
  apply Hagain; [reflexivity |].
  apply sample_root_chain; vm_compute; reflexivity.
Defined.

(** Witness of X6. *)
Lemma init_failures_witness :
  makedirs (dataset_root sample_base) ∅
    = (Ok tt, (makedirs (dataset_root sample_base) ∅).2) /\
  (makedirs (dataset_root sample_base) ∅).2 !! dataset_root sample_base = Some Dir /\
  (__init__ decimal_float (unpack sample_files) sample_base false true ∅).1
    = Raise RuntimeError.
Proof.
  assert (Hmk : makedirs (dataset_root sample_base) ∅
                = (Ok tt, (makedirs (dataset_root sample_base) ∅).2))
    by (apply pair_of_first; vm_compute; reflexivity).
  destruct (init_failures decimal_float (unpack sample_files) sample_base false true
              ∅ _ Hmk) as (Hdir & Hnone & _).
  split; [exact Hmk |]. split; [exact Hdir |].
  rewrite Hnone; [reflexivity | vm_compute; reflexivity | vm_compute; reflexivity].
Defined.






(** Witness of X10: a 390 by 320 picture and a square one. *)
Lemma TRANSFORMS_sides_witness :
  exists t t',
    TRANSFORMS nearest_resample (uniform 390 320) = Ok t /\
    TRANSFORMS nearest_resample (uniform 320 320) = Ok t' /\
    t_shape t = (1, 184, 224) /\ t_shape t' = (1, 223, 223) /\
    pad_amounts 223 223 = (1, 1, 0, 0).
Proof.
  assert (H0 : 0 <= 320) by lia. assert (H0' : 0 <= 390) by lia.
  assert (H1 : 1 <= 320) by lia. assert (H1' : 1 <= 390) by lia.
  assert (Hr : Z.max 320 390 <= 224 * Z.min 320 390) by lia.
  assert (Hr' : Z.max 320 320 <= 224 * Z.min 320 320) by lia.
  destruct (TRANSFORMS_ok nearest_resample (uniform 390 320) 390 320 eq_refl H1' H1 Hr)
    as (t & _ & _ & Ht & _).
  destruct (TRANSFORMS_ok nearest_resample (uniform 320 320) 320 320 eq_refl H1 H1 Hr')
    as (t' & _ & _ & Ht' & _).
  destruct (TRANSFORMS_sides nearest_resample (uniform 320 320) 320 320 t' eq_refl
              H0 H0 Ht') as (_ & _ & nh & nw & Hs & _ & _ & _ & _ & Hsq & Hpad).
  destruct (Hsq eq_refl) as [-> ->]. destruct (Hpad eq_refl) as [_ Hp].
  exists t, t'. split; [exact Ht |]. split; [exact Ht' |]. split; [| split; [exact Hs | exact Hp]].
  assert (Hview : t_shape <$> TRANSFORMS nearest_resample (uniform 390 320)
                  = Ok (1, 184, 224)) by (vm_compute; reflexivity).
  rewrite Ht in Hview. by injection Hview.
Defined.

(** Witness of X11: a 184 by 224 tensor. *)
Lemma padding_step_keeps_content_witness :
  pad_amounts 184 224 = (0, 20, 0, 20) /\
  t_shape (padding_step (constant_tensor 1 184 224 (1 # 2))) = (1, 224, 224) /\
  t_data (padding_step (constant_tensor 1 184 224 (1 # 2))) 0 20 0 = (1 # 2)%Q /\
  t_data (padding_step (constant_tensor 1 184 224 (1 # 2))) 0 19 0 = 0%Q.
Proof.
  assert (H184 : 0 <= 184) by lia. assert (H224 : 0 <= 224) by lia.
  assert (Hsq : 184 = 224 -> 184 <= 224) by lia.
  destruct (padding_step_keeps_content (constant_tensor 1 184 224 (1 # 2))
              1 184 224 0 20 0 20 eq_refl H184 H224 Hsq eq_refl)
    as (_ & _ & _ & _ & Hs & Hin & Hout).
  split; [reflexivity |]. split; [exact Hs |]. split.
  - apply (Hin 0 0 0); lia.
  - apply Hout. lia.
Defined.

(** Witness of X12: the validation split read on a base directory without
    the pictures. *)
Lemma getitem_image_file_witness :
  built_from decimal_float valid_object [csv_header; csv_row1; csv_row2] /\
  __len__ valid_object = Ok 2 /\ 0 <= 0 < 2 /\
  __getitem__ nearest_resample valid_object archive_only 0 = Raise FileNotFoundError /\
  __getitem__ nearest_resample valid_object header_only 0
  = __getitem__ nearest_resample valid_object unpacked 0.
Proof.
  assert (Hp : 0 <= 0 < 2) by lia.
  destruct (getitem_image_file decimal_float nearest_resample valid_object _
              archive_only 2 0 csv_row1 valid_object_built valid_object_len Hp eq_refl)
    as (Hnone & _).
  destruct (getitem_image_file decimal_float nearest_resample valid_object _
              unpacked 2 0 csv_row1 valid_object_built valid_object_len Hp eq_refl)
    as (_ & _ & _ & Hsame).
  split; [exact valid_object_built |]. split; [reflexivity |]. split; [exact Hp |].
  split.
  - apply Hnone. vm_compute. reflexivity.
  - apply Hsame. vm_compute. reflexivity.
Defined.

Lemma lookup_unpack (files : list (string * node)) (from_path : string)
    (fs : filesystem) (p : string) (x : node) :
  (unpack files from_path fs).2 !! p = Some x -> (p, x) ∈ files \/ fs !! p = Some x.
Proof.
  unfold unpack. cbn [snd].
  induction files as [| [q y] files IH]; simpl; [by right |].
  destruct (decide (q = p)) as [-> | Hne].
  - rewrite lookup_insert_eq. intros [= ->]. left. apply list_elem_of_here.
  - rewrite lookup_insert_ne by done. intros H.
    destruct (IH H) as [Hin | Hfs]; [left; by apply list_elem_of_further | by right].
Qed.

Lemma makedirs_new (name : string) (fs : filesystem) (p : string) (x : node) :
  (makedirs name fs).2 !! p = Some x -> fs !! p = Some x \/ x = Dir.
Proof.
  unfold makedirs. intros H. apply mkdirs_new in H as [H | (_ & H & _)]; [by left | by right].
Qed.

Lemma archive_only_lookup (p : string) (x : node) :
  archive_only !! p = Some x -> x = File Archive.
Proof.
  unfold archive_only. intros H. by apply lookup_singleton_Some in H as [_ <-].
Qed.

Lemma unpacked_unfold :
  unpacked = (unpack sample_files sample_zip (makedirs sample_root archive_only).2).2.
Proof. unfold unpacked. exact eq_refl. Qed.

Lemma sample_pictures (path : string) (im : image) :
  (path, File (Picture im)) ∈ sample_files ->
  0 <= (im_size im).1 /\ 0 <= (im_size im).2.
Proof.
  unfold sample_files. intros Hin.
  repeat (apply elem_of_cons in Hin as [Heq | Hin];
          [try discriminate Heq; injection Heq as _ ->; simpl; lia |]).
  by apply elem_of_nil in Hin.
Qed.

Lemma unpacked_pictures (path : string) (im : image) :
  unpacked !! path = Some (File (Picture im)) ->
  0 <= (im_size im).1 /\ 0 <= (im_size im).2.
Proof.
  rewrite unpacked_unfold. intros H.
  apply lookup_unpack in H as [Hin | Hfs].
  - by apply (sample_pictures path).
  - apply makedirs_new in Hfs as [Hfs | Hdir]; [| discriminate Hdir].
    apply archive_only_lookup in Hfs. discriminate Hfs.
Qed.

(** Witness of X13: position 0 of the validation split. *)
Lemma spec_agrees_with_samples_witness :
  built_from decimal_float valid_object [csv_header; csv_row1; csv_row2] /\
  exists img label,
    __getitem__ nearest_resample valid_object unpacked 0 = Ok (0, img, label) /\
    t_shape img = (1, 224, 224) /\
    Z.of_nat (length (ndarray_values label)) = 14.
Proof.
  assert (Hview : sample_view (__getitem__ nearest_resample valid_object unpacked 0)
                  = Ok (0, (1, 224, 224),
                        Array1 [0; 1; 1; 1; 0; 0; 0; 0; 0; 0; 0; 0; 0; 0]))
    by (vm_compute; reflexivity).
  destruct (__getitem__ nearest_resample valid_object unpacked 0)
    as [[[i img] label] | e] eqn:Hget; [| discriminate Hview].
  injection Hview as -> _ _.
  destruct (spec_agrees_with_samples decimal_float nearest_resample valid_object _
              unpacked 0 0 img label valid_object_built unpacked_pictures Hget)
    as (s & Hspec & Hshape & Hlen & _).
  injection Hspec as <-.
  split; [exact valid_object_built |].
  exists img, label. split; [reflexivity |]. split; [exact Hshape | exact Hlen].
Defined.




(** Witness of X16: an unpacking that does nothing on a base directory
    with the archive only. *)
Lemma init_unpacked_nothing_witness :
  makedirs (dataset_root sample_base) archive_only
    = (Ok tt, (makedirs (dataset_root sample_base) archive_only).2) /\
  (find_data (unpack []) (dataset_root sample_base) archive_only).1 = Ok sample_zip /\
  (__init__ decimal_float (unpack []) sample_base false false archive_only).1
    = Raise OSError.
Proof.
  assert (Hmk : makedirs (dataset_root sample_base) archive_only
                = (Ok tt, (makedirs (dataset_root sample_base) archive_only).2))
    by (apply pair_of_first; vm_compute; reflexivity).
  assert (Hd : os_path_exists archive_only (extracted_dir (dataset_root sample_base))
               = false) by (vm_compute; reflexivity).
  assert (Hz : os_path_exists archive_only (archive_path (dataset_root sample_base))
               = true) by (vm_compute; reflexivity).
  assert (Hd2 : os_path_exists (makedirs (dataset_root sample_base) archive_only).2
                  (extracted_dir (dataset_root sample_base)) = false)
    by (vm_compute; reflexivity).
  assert (Hz2 : os_path_exists (makedirs (dataset_root sample_base) archive_only).2
                  (archive_path (dataset_root sample_base)) = true)
    by (vm_compute; reflexivity).
  destruct (init_unpacked_nothing decimal_float (unpack []) sample_base false false
              archive_only _ _ Hmk Hd Hz eq_refl Hd2 Hz2) as [Hfind Hinit].
  split; [exact Hmk |]. split; [by rewrite Hfind |].
  rewrite Hinit; [reflexivity |]. vm_compute. reflexivity.
Defined.
